(** * Device manager of the thin-client fleet: registry and deployment core

    A shallow embedding of [thin-client/boot/device_manager.py]: the three
    SQLite tables, the files the manager reads and writes, and the public
    operations [register_device], [register_image],
    [deploy_image_to_device] and [cleanup_deployment].

    Modelling conventions.
    - A Python [str] is a [string]; characters are 8-bit, so the same type
      also serves for the bytes of a file.  Case folding is ASCII.
    - Dictionary values handed in by the caller are [None] or a [str]
      (what the command line front end passes).
    - The file system is a finite map from path strings, normalised as
      [pathlib] does, to file contents.  Only regular files are tracked:
      directories, permissions, symbolic links and [..] are not resolved.
    - A table is the list of its rows in insertion order, with the
      AUTOINCREMENT counter next to it.
    - An operation takes the clock readings it makes as an argument. *)

From Stdlib Require Import ZArith Ascii String List Lia Sorted Permutation.
From stdpp Require Import base option list gmap strings.

Local Open Scope Z_scope.

(* ================================================================== *)
(** ** Text helpers: the [str] methods the manager calls               *)
(* ================================================================== *)

Module Str.

Definition dquote : ascii := ascii_of_nat 34.
Definition squote : ascii := ascii_of_nat 39.
Definition backslash : ascii := ascii_of_nat 92.
Definition newline : ascii := ascii_of_nat 10.

Definition chr (c : ascii) : string := String c EmptyString.

(** [c.lower()] on one ASCII character. *)
Definition lower_char (c : ascii) : ascii :=
  let n := nat_of_ascii c in
  if (Nat.leb 65 n && Nat.leb n 90)%bool then ascii_of_nat (n + 32) else c.

(** [s.lower()] *)
Fixpoint lower (s : string) : string :=
  match s with
  | EmptyString => EmptyString
  | String c r => String (lower_char c) (lower r)
  end.

(** [s.replace(old, new)] for a one-character [old]. *)
Fixpoint replace (old : ascii) (new : string) (s : string) : string :=
  match s with
  | EmptyString => EmptyString
  | String c r =>
      if Ascii.eqb c old then new +:+ replace old new r
      else String c (replace old new r)
  end.

(** [s[:n]] *)
Fixpoint take (n : nat) (s : string) : string :=
  match n, s with
  | S k, String c r => String c (take k r)
  | _, _ => EmptyString
  end.

(** [needle in hay] *)
Fixpoint contains (needle hay : string) : bool :=
  if String.prefix needle hay then true
  else match hay with
       | EmptyString => false
       | String _ r => contains needle r
       end.

(** [s.split(sep)] for a one-character separator: never the empty list. *)
Fixpoint split (sep : ascii) (s : string) : list string :=
  match s with
  | EmptyString => [EmptyString]
  | String c r =>
      if Ascii.eqb c sep then EmptyString :: split sep r
      else match split sep r with
           | [] => [chr c]
           | h :: t => String c h :: t
           end
  end.

(** [sep.join(parts)] *)
Definition join (sep : string) (parts : list string) : string :=
  String.concat sep parts.

(** Python truthiness of a [str]. *)
Definition nonempty (s : string) : bool :=
  match s with EmptyString => false | _ => true end.

End Str.

(* ================================================================== *)
(** ** SHA-256 (FIPS 180-4), as [hashlib.sha256(...).hexdigest()]      *)
(* ================================================================== *)

Module SHA256.

Definition mask32 : Z := 0xffffffff.
Definition w32 (x : Z) : Z := Z.land x mask32.
Definition add32 (x y : Z) : Z := w32 (x + y).

Definition rotr (n x : Z) : Z :=
  Z.lor (Z.shiftr x n) (w32 (Z.shiftl x (32 - n))).
Definition shr (n x : Z) : Z := Z.shiftr x n.

Definition Ch (x y z : Z) : Z :=
  Z.lxor (Z.land x y) (Z.land (Z.lxor x mask32) z).
Definition Maj (x y z : Z) : Z :=
  Z.lxor (Z.lxor (Z.land x y) (Z.land x z)) (Z.land y z).
Definition bsig0 (x : Z) : Z := Z.lxor (Z.lxor (rotr 2 x) (rotr 13 x)) (rotr 22 x).
Definition bsig1 (x : Z) : Z := Z.lxor (Z.lxor (rotr 6 x) (rotr 11 x)) (rotr 25 x).
Definition ssig0 (x : Z) : Z := Z.lxor (Z.lxor (rotr 7 x) (rotr 18 x)) (shr 3 x).
Definition ssig1 (x : Z) : Z := Z.lxor (Z.lxor (rotr 17 x) (rotr 19 x)) (shr 10 x).

(** The first 64 primes. *)
Definition primes : list Z :=
  [ 2; 3; 5; 7; 11; 13; 17; 19; 23; 29; 31; 37; 41; 43; 47; 53;
    59; 61; 67; 71; 73; 79; 83; 89; 97; 101; 103; 107; 109; 113; 127; 131;
    137; 139; 149; 151; 157; 163; 167; 173; 179; 181; 191; 193; 197; 199;
    211; 223; 227; 229; 233; 239; 241; 251; 257; 263; 269; 271; 277; 281;
    283; 293; 307; 311 ].

(** The integer cube root of [n] below [2 ^ bits], found bit by bit. *)
Fixpoint icbrt (bits : nat) (n acc : Z) : Z :=
  match bits with
  | O => acc
  | S k =>
      let try := acc + Z.shiftl 1 (Z.of_nat k) in
      icbrt k n (if try * try * try <=? n then try else acc)
  end.

(** The round constants: the first 32 bits of the fractional parts of
    the cube roots of the first 64 primes. *)
Definition K : list Z :=
  Eval vm_compute in
    List.map (fun p => w32 (icbrt 36 (Z.shiftl p 96) 0)) primes.

(** The initial hash value: the same of the square roots of the first
    8 primes. *)
Definition H0 : list Z :=
  Eval vm_compute in
    List.map (fun p => w32 (Z.sqrt (Z.shiftl p 64))) (List.firstn 8 primes).

Definition bytes_of (s : string) : list Z :=
  List.map (fun c => Z.of_nat (nat_of_ascii c)) (list_ascii_of_string s).

(** Big-endian encoding of [x] on [n] bytes. *)
Fixpoint be_bytes (n : nat) (x : Z) : list Z :=
  match n with
  | O => []
  | S k => Z.land (Z.shiftr x (8 * Z.of_nat k)) 0xff :: be_bytes k x
  end.

(** Padding: a one bit, zeros up to 56 modulo 64, the bit length on 8 bytes. *)
Definition pad (msg : list Z) : list Z :=
  let len := Z.of_nat (List.length msg) in
  let zeros := Z.to_nat ((55 - len) mod 64) in
  msg ++ 0x80 :: List.repeat 0 zeros ++ be_bytes 8 (8 * len).

Fixpoint words_be (bs : list Z) : list Z :=
  match bs with
  | a :: b :: c :: d :: r =>
      Z.lor (Z.lor (Z.shiftl a 24) (Z.shiftl b 16)) (Z.lor (Z.shiftl c 8) d)
      :: words_be r
  | _ => []
  end.

Fixpoint chunks (n : nat) (k : nat) (ws : list Z) : list (list Z) :=
  match n with
  | O => []
  | S n' => List.firstn k ws :: chunks n' k (List.skipn k ws)
  end.

Definition wd (ws : list Z) (i : nat) : Z := List.nth i ws 0.

(** Message schedule: the 16 words of the block extended to 64. *)
Fixpoint extend (n : nat) (ws : list Z) : list Z :=
  match n with
  | O => ws
  | S k =>
      let t := List.length ws in
      let x := add32 (add32 (ssig1 (wd ws (t - 2))) (wd ws (t - 7)))
                     (add32 (ssig0 (wd ws (t - 15))) (wd ws (t - 16))) in
      extend k (ws ++ [x])
  end.

Definition round (st : list Z) (kw : Z * Z) : list Z :=
  match st with
  | [a; b; c; d; e; f; g; h] =>
      let t1 := add32 (add32 (add32 h (bsig1 e)) (add32 (Ch e f g) (fst kw))) (snd kw) in
      let t2 := add32 (bsig0 a) (Maj a b c) in
      [add32 t1 t2; a; b; c; add32 d t1; e; f; g]
  | _ => st
  end.

Definition compress (h : list Z) (block : list Z) : list Z :=
  let sched := extend 48 block in
  let st := List.fold_left round (List.combine K sched) h in
  List.map (fun p => add32 (fst p) (snd p)) (List.combine h st).

Definition hex_digit (d : Z) : ascii :=
  if d <? 10 then ascii_of_nat (48 + Z.to_nat d)
  else ascii_of_nat (87 + Z.to_nat d).

Fixpoint hex_be (n : nat) (x : Z) : string :=
  match n with
  | O => EmptyString
  | S k => String (hex_digit (Z.land (Z.shiftr x (4 * Z.of_nat k)) 0xf)) (hex_be k x)
  end.

Definition digest_words (msg : string) : list Z :=
  let ws := words_be (pad (bytes_of msg)) in
  List.fold_left compress (chunks (List.length ws / 16) 16 ws) H0.

(** Feeding the file in 4096-byte pieces to [update] hashes their
    concatenation, so the digest is taken of the whole content. *)
Definition hexdigest (msg : string) : string :=
  List.fold_right (fun x acc => hex_be 8 x +:+ acc) EmptyString (digest_words msg).

End SHA256.

(* ================================================================== *)
(** ** [pathlib.Path] on POSIX                                          *)
(* ================================================================== *)

Module PurePath.

(** A parsed path: the root ([/], [//] or none) and the components. *)
Record t := mk { root : string; parts : list string }.

Fixpoint lstrip_slash (s : string) : string :=
  match s with
  | String c r => if Ascii.eqb c "/" then lstrip_slash r else s
  | EmptyString => s
  end.

(** Exactly two leading slashes are kept; any other number is one. *)
Definition splitroot (s : string) : string * string :=
  match s with
  | String c _ =>
      if Ascii.eqb c "/" then
        let rest := lstrip_slash s in
        if Nat.eqb (String.length s - String.length rest) 2
        then ("//", rest) else ("/", rest)
      else (EmptyString, s)
  | EmptyString => (EmptyString, s)
  end.

Definition keep (x : string) : bool :=
  (Str.nonempty x && negb (String.eqb x "."))%bool.

Definition components (rel : string) : list string :=
  List.filter keep (Str.split "/" rel).

(** [Path(s)] *)
Definition Path (s : string) : t :=
  let '(rt, rel) := splitroot s in mk rt (components rel).

(** [str(p)] *)
Definition str (p : t) : string :=
  match root p, parts p with
  | EmptyString, [] => "."
  | rt, ps => rt +:+ Str.join "/" ps
  end.

(** [p.name] *)
Definition name (p : t) : string := List.last (parts p) EmptyString.

(** [p / child]: an absolute child replaces [p]. *)
Definition div (p : t) (child : string) : t :=
  let c := Path child in
  if Str.nonempty (root c) then c
  else mk (root p) (parts p ++ parts c).

End PurePath.

Abbreviation Path := PurePath.Path.
Infix "//" := PurePath.div (at level 40, left associativity).

(* ================================================================== *)
(** ** Python values, dictionaries, exceptions, JSON                    *)
(* ================================================================== *)

Inductive pyval := PyNone | PyStr (s : string).

(** A [dict] with string keys, in insertion order. *)
Definition pydict := list (string * pyval).

Fixpoint dict_lookup (d : pydict) (k : string) : option pyval :=
  match d with
  | [] => None
  | (k', v) :: r => if String.eqb k' k then Some v else dict_lookup r k
  end.

(** [d.get(k, default)] *)
Definition dict_get (d : pydict) (k : string) (default : pyval) : pyval :=
  match dict_lookup d k with Some v => v | None => default end.

Definition truthy (v : pyval) : bool :=
  match v with PyNone => false | PyStr s => Str.nonempty s end.

(** [f"{v}"] *)
Definition format (v : pyval) : string :=
  match v with PyNone => "None" | PyStr s => s end.

(** The value bound to an SQL parameter: [None] is NULL. *)
Definition sql_value (v : pyval) : option string :=
  match v with PyNone => None | PyStr s => Some s end.

Inductive exn :=
| KeyError (key : string)
| AttributeError (attr : string)
| FileNotFoundError (path : string)
| SameFileError (src dst : string)
| IntegrityError (msg : string).

(** [str(e)]; a path is shown as the file system resolves it. *)
Definition exn_str (e : exn) : string :=
  match e with
  | KeyError k => Str.chr Str.squote +:+ k +:+ Str.chr Str.squote
  | AttributeError a =>
      "'NoneType' object has no attribute '" +:+ a +:+ "'"
  | FileNotFoundError p =>
      "[Errno 2] No such file or directory: '" +:+ p +:+ "'"
  | SameFileError s d =>
      "'" +:+ s +:+ "' and PosixPath('" +:+ d +:+ "') are the same file"
  | IntegrityError m => m
  end.

Module Json.

Definition hex4 (n : nat) : string := SHA256.hex_be 4 (Z.of_nat n).

(** One character inside a JSON string, with [ensure_ascii]. *)
Definition escape_char (c : ascii) : string :=
  let n := nat_of_ascii c in
  if Nat.eqb n 34 then Str.chr Str.backslash +:+ Str.chr Str.dquote
  else if Nat.eqb n 92 then Str.chr Str.backslash +:+ Str.chr Str.backslash
  else if Nat.eqb n 10 then Str.chr Str.backslash +:+ "n"
  else if Nat.eqb n 13 then Str.chr Str.backslash +:+ "r"
  else if Nat.eqb n 9 then Str.chr Str.backslash +:+ "t"
  else if Nat.eqb n 8 then Str.chr Str.backslash +:+ "b"
  else if Nat.eqb n 12 then Str.chr Str.backslash +:+ "f"
  else if (Nat.leb 32 n && Nat.leb n 126)%bool then Str.chr c
  else Str.chr Str.backslash +:+ "u" +:+ hex4 n.

Fixpoint escape (s : string) : string :=
  match s with
  | EmptyString => EmptyString
  | String c r => escape_char c +:+ escape r
  end.

Definition quote (s : string) : string :=
  Str.chr Str.dquote +:+ escape s +:+ Str.chr Str.dquote.

Definition value (v : pyval) : string :=
  match v with PyNone => "null" | PyStr s => quote s end.

Definition member (kv : string * pyval) : string :=
  quote (fst kv) +:+ ": " +:+ value (snd kv).

(** [json.dumps(d)] *)
Definition dumps (d : pydict) : string :=
  "{" +:+ Str.join ", " (List.map member d) +:+ "}".

(** [json.dumps(d, indent=2)] *)
Definition dumps_indent2 (d : pydict) : string :=
  match d with
  | [] => "{}"
  | _ =>
      let nl := Str.chr Str.newline in
      "{" +:+ nl +:+ "  "
      +:+ Str.join ("," +:+ nl +:+ "  ") (List.map member d)
      +:+ nl +:+ "}"
  end.

End Json.

(* ================================================================== *)
(** ** The three tables                                                 *)
(* ================================================================== *)

Module Device.
Record row := mk {
  id : Z;
  device_id : string;
  mac_address : string;
  ip_address : option string;
  hostname : option string;
  hardware_profile : option string;
  current_image : option string;
  target_image : option string;
  status : option string;
  location : option string;
  assigned_user : option string;
  last_seen : option string;
  created_at : option string;
  updated_at : option string }.
End Device.

Module Deployment.
Record row := mk {
  id : Z;
  deployment_id : string;
  device_id : string;
  image_id : string;
  deployment_method : string;
  status : option string;
  progress : option Z;
  started_at : option string;
  completed_at : option string;
  error_message : option string }.
End Deployment.

Module Image.
Record row := mk {
  id : Z;
  image_id : string;
  name : string;
  version : string;
  description : option string;
  file_path : string;
  file_size : option Z;
  sha256_hash : option string;
  created_at : option string;
  metadata : option string }.
End Image.

(** A table: its rows in insertion order and the AUTOINCREMENT counter. *)
Record table (R : Type) := Table { rows : list R; seq : Z }.
Arguments Table {R} _ _.
Arguments rows {R} _.
Arguments seq {R} _.

(** ** The world an operation runs in *)

Record world := World {
  devices : table Device.row;
  deployments : table Deployment.row;
  images : table Image.row;
  files : gmap string string;
  tick : nat }.

(** A [datetime] through the two renderings the manager takes of it. *)
Record datetime := { isoformat : string; strftime_Ymd_HMS : string }.

(** The readings of [datetime.now()] and of SQL's CURRENT_TIMESTAMP,
    indexed by the number of readings made before. *)
Record clock := { py_now : nat -> datetime; sql_now : nat -> string }.

(** The manager's configuration as [__init__] leaves it. *)
Record DeviceManager := {
  tftp_root : PurePath.t;
  http_root : PurePath.t;
  pxe_server_ip : string }.

(* ================================================================== *)
(** ** Computations: a world threaded through, exceptions raised        *)
(* ================================================================== *)

Inductive outcome (A : Type) := Ok (a : A) | Raise (e : exn).
Arguments Ok {A} _.
Arguments Raise {A} _.

Definition M (A : Type) : Type := world -> world * outcome A.

#[global] Instance M_ret : MRet M := fun A a w => (w, Ok a).
#[global] Instance M_bind : MBind M := fun A B f m w =>
  match m w with
  | (w', Ok a) => f a w'
  | (w', Raise e) => (w', Raise e)
  end.

Definition raise {A} (e : exn) : M A := fun w => (w, Raise e).
Definition get_world : M world := fun w => (w, Ok w).
Definition modify (f : world -> world) : M unit := fun w => (f w, Ok tt).

(** [try: body except Exception as e: handler(e)]: what [body] did to the
    world before raising stays done. *)
Definition try_except {A} (body : M A) (handler : exn -> M A) : M A :=
  fun w => match body w with
           | (w', Ok a) => (w', Ok a)
           | (w', Raise e) => handler e w'
           end.

Definition set_devices (t : table Device.row) (w : world) : world :=
  World t (deployments w) (images w) (files w) (tick w).
Definition set_deployments (t : table Deployment.row) (w : world) : world :=
  World (devices w) t (images w) (files w) (tick w).
Definition set_images (t : table Image.row) (w : world) : world :=
  World (devices w) (deployments w) t (files w) (tick w).
Definition set_files (f : gmap string string) (w : world) : world :=
  World (devices w) (deployments w) (images w) f (tick w).
Definition set_tick (n : nat) (w : world) : world :=
  World (devices w) (deployments w) (images w) (files w) n.

(** *** Clock readings *)

Definition datetime_now (clk : clock) : M datetime :=
  fun w => (set_tick (S (tick w)) w, Ok (py_now clk (tick w))).

Definition CURRENT_TIMESTAMP (clk : clock) : M string :=
  fun w => (set_tick (S (tick w)) w, Ok (sql_now clk (tick w))).

(** *** Files *)

(** The key of the file a [str] path names. *)
Definition os_path (s : string) : string := PurePath.str (Path s).

Definition exists_ (p : string) : M bool :=
  fun w => (w, Ok (bool_decide (is_Some (files w !! p)))).

Definition write_file (p : string) (content : string) : M unit :=
  modify (fun w => set_files (<[p := content]> (files w)) w).

Definition read_file (p : string) : M string :=
  fun w => match files w !! p with
           | Some c => (w, Ok c)
           | None => (w, Raise (FileNotFoundError p))
           end.

Definition unlink (p : string) : M unit :=
  fun w => match files w !! p with
           | Some _ => (set_files (delete p (files w)) w, Ok tt)
           | None => (w, Raise (FileNotFoundError p))
           end.

(** [p.stat().st_size] *)
Definition st_size (p : string) : M Z :=
  c ← read_file p; mret (Z.of_nat (String.length c)).

(** [shutil.copy2(src, dst)] between regular files. *)
Definition copy2 (src dst : string) : M unit :=
  fun w => match files w !! src with
           | None => (w, Raise (FileNotFoundError src))
           | Some c =>
               if String.eqb src dst then (w, Raise (SameFileError src dst))
               else (set_files (<[dst := c]> (files w)) w, Ok tt)
           end.

(* ================================================================== *)
(** ** SQL statements                                                   *)
(* ================================================================== *)

(** A row the REPLACE conflict resolution deletes: it shares a UNIQUE
    column with the row coming in. *)
Definition device_conflict (device_id mac_address : string) (r : Device.row) : bool :=
  (String.eqb (Device.device_id r) device_id
   || String.eqb (Device.mac_address r) mac_address)%bool.

(** [INSERT OR REPLACE INTO devices (device_id, mac_address, ip_address,
    hostname, hardware_profile, location, assigned_user, last_seen,
    updated_at)]: the columns left out take their defaults. *)
Definition insert_or_replace_device (clk : clock)
    (device_id mac_address : string)
    (ip_address hostname hardware_profile location assigned_user
     last_seen updated_at : option string) : M unit :=
  created ← CURRENT_TIMESTAMP clk;
  modify (fun w =>
    let t := devices w in
    let rowid := seq t + 1 in
    let kept := List.filter (fun r => negb (device_conflict device_id mac_address r)) (rows t) in
    let new := Device.mk rowid device_id mac_address ip_address hostname
                 hardware_profile None None (Some "registered")
                 location assigned_user last_seen (Some created) updated_at in
    set_devices (Table (kept ++ [new]) rowid) w).

(** [SELECT * FROM devices WHERE device_id = ?], [fetchone()] *)
Definition select_device (device_id : string) (w : world) : option Device.row :=
  List.find (fun r => String.eqb (Device.device_id r) device_id) (rows (devices w)).

(** [SELECT * FROM images WHERE image_id = ?], [fetchone()] *)
Definition select_image (image_id : string) (w : world) : option Image.row :=
  List.find (fun r => String.eqb (Image.image_id r) image_id) (rows (images w)).

(** [INSERT OR REPLACE INTO images (image_id, name, version, description,
    file_path, file_size, sha256_hash, metadata)]: a NULL in a NOT NULL
    column without default aborts the statement. *)
Definition insert_or_replace_image (clk : clock)
    (image_id : string) (name version description : option string)
    (file_path : string) (file_size : Z) (sha256_hash metadata : string) : M unit :=
  match name, version with
  | None, _ => raise (IntegrityError "NOT NULL constraint failed: images.name")
  | Some _, None => raise (IntegrityError "NOT NULL constraint failed: images.version")
  | Some name, Some version =>
      created ← CURRENT_TIMESTAMP clk;
      modify (fun w =>
        let t := images w in
        let rowid := seq t + 1 in
        let kept := List.filter (fun r => negb (String.eqb (Image.image_id r) image_id)) (rows t) in
        let new := Image.mk rowid image_id name version description file_path
                     (Some file_size) (Some sha256_hash) (Some created) (Some metadata) in
        set_images (Table (kept ++ [new]) rowid) w)
  end.

(** [INSERT INTO deployments (deployment_id, device_id, image_id,
    deployment_method, status)]: fails on a taken deployment_id. *)
Definition insert_deployment (clk : clock)
    (deployment_id device_id image_id deployment_method status : string) : M unit :=
  w ← get_world;
  if List.existsb (fun r => String.eqb (Deployment.deployment_id r) deployment_id)
       (rows (deployments w))
  then raise (IntegrityError "UNIQUE constraint failed: deployments.deployment_id")
  else
    started ← CURRENT_TIMESTAMP clk;
    modify (fun w =>
      let t := deployments w in
      let rowid := seq t + 1 in
      let new := Deployment.mk rowid deployment_id device_id image_id
                   deployment_method (Some status) (Some 0) (Some started)
                   None None in
      set_deployments (Table (rows t ++ [new]) rowid) w).

(** [UPDATE deployments SET status = ?, error_message = ?, started_at = ?
    WHERE deployment_id = ?] *)
Definition update_deployment
    (status : string) (error_message : option string) (started_at : string)
    (deployment_id : string) : M unit :=
  modify (fun w =>
    let t := deployments w in
    let upd r :=
      if String.eqb (Deployment.deployment_id r) deployment_id
      then Deployment.mk (Deployment.id r) (Deployment.deployment_id r)
             (Deployment.device_id r) (Deployment.image_id r)
             (Deployment.deployment_method r) (Some status)
             (Deployment.progress r) (Some started_at)
             (Deployment.completed_at r) error_message
      else r in
    set_deployments (Table (List.map upd (rows t)) (seq t)) w).

(* ================================================================== *)
(** ** What the operations return                                       *)
(* ================================================================== *)

(** [{"success": True, ...}] or [{"success": False, "error": ...}] *)
Inductive result (A : Type) := Success (payload : A) | Failure (error : string).
Arguments Success {A} _.
Arguments Failure {A} _.

Definition success {A} (r : result A) : bool :=
  match r with Success _ => true | Failure _ => false end.

Module Reply.
Record device := Device { device_id : string; mac_address : string }.
Record image := Image { image_id : string; file_path : string; sha256_hash : string }.
(** The payload of a delivery strategy, by its ["method"]. *)
Inductive delivery :=
| pxe (pxe_config image_url : string)
| usb (package_directory instructions : string)
| network (image_url : string) (image_hash : option string) (instructions : string).
(** The strategy's result with the ["deployment_id"] key once it is set. *)
Record deploy := Deploy { outcome : result delivery; deployment_id : option string }.
End Reply.

(* ================================================================== *)
(** ** class DeviceManager                                              *)
(* ================================================================== *)

(** [d[k]] *)
Definition getitem (d : pydict) (k : string) : M pyval :=
  match dict_lookup d k with
  | Some v => mret v
  | None => raise (KeyError k)
  end.

(** Calling the [str] method [attr] on a value: [None] has none. *)
Definition str_method (attr : string) (v : pyval) : M string :=
  match v with
  | PyStr s => mret s
  | PyNone => raise (AttributeError attr)
  end.

(** [mac_address.replace(':', '').lower()] *)
Definition generate_device_id (mac_address : pyval) : M string :=
  s ← str_method "replace" mac_address;
  mret (Str.lower (Str.replace ":" EmptyString s)).

Definition reservations_file : string := "/etc/dnsmasq.d/vdi-devices.conf".

(** The restart of the address service is outside the model. *)
Definition create_dhcp_reservation (mac_address : string) (ip_address : pyval) : M unit :=
  if negb (truthy ip_address) then mret tt
  else
    let nl := Str.chr Str.newline in
    let reservation_line :=
      "dhcp-host=" +:+ mac_address +:+ "," +:+ format ip_address +:+ ",24h" in
    try_except
      (present ← exists_ (os_path reservations_file);
       content ←
         (if (present : bool) then
            content ← read_file (os_path reservations_file);
            if Str.contains mac_address content then
              mret (Str.join nl
                      (List.map (fun line => if Str.contains mac_address line
                                             then reservation_line else line)
                                (Str.split Str.newline content)))
            else mret (content +:+ nl +:+ reservation_line)
          else mret reservation_line);
       write_file (os_path reservations_file) content)
      (fun _ => mret tt).

Definition register_device (self : DeviceManager) (clk : clock)
    (device_info : pydict) : M (result Reply.device) :=
  try_except
    (device_id ←
       (let given := dict_get device_info "device_id" PyNone in
        if truthy given then mret (format given)
        else (mac ← getitem device_info "mac_address"; generate_device_id mac));
     raw ← getitem device_info "mac_address";
     given_mac ← str_method "lower" raw;
     let mac_address := Str.replace "-" ":" (Str.lower given_mac) in
     let hardware_profile :=
       match dict_lookup device_info "hardware_profile" with
       | Some v => Json.value v
       | None => "{}"
       end in
     seen ← datetime_now clk;
     updated ← datetime_now clk;
     insert_or_replace_device clk device_id mac_address
       (sql_value (dict_get device_info "ip_address" PyNone))
       (sql_value (dict_get device_info "hostname" PyNone))
       (Some hardware_profile)
       (sql_value (dict_get device_info "location" PyNone))
       (sql_value (dict_get device_info "assigned_user" PyNone))
       (Some (isoformat seen)) (Some (isoformat updated));;
     create_dhcp_reservation mac_address (dict_get device_info "ip_address" PyNone);;
     mret (Success (Reply.Device device_id mac_address)))
    (fun e => mret (Failure (exn_str e))).

Definition get_device (device_id : string) : M (option Device.row) :=
  w ← get_world; mret (select_device device_id w).

Definition get_image (image_id : string) : M (option Image.row) :=
  w ← get_world; mret (select_image image_id w).

Definition register_image (self : DeviceManager) (clk : clock)
    (image_path : string) (metadata : pydict) : M (result Reply.image) :=
  try_except
    (let image_path := Path image_path in
     present ← exists_ (PurePath.str image_path);
     if negb present then mret (Failure "Image file does not exist")
     else
       content ← read_file (PurePath.str image_path);
       let file_hash := SHA256.hexdigest content in
       let image_id :=
         format (dict_get metadata "name" (PyStr "unknown")) +:+ "-"
         +:+ format (dict_get metadata "version" (PyStr "1.0")) +:+ "-"
         +:+ Str.take 8 file_hash in
       let target_path := http_root self // PurePath.name image_path in
       there ← exists_ (PurePath.str target_path);
       (if (there : bool) then mret tt
        else copy2 (PurePath.str image_path) (PurePath.str target_path));;
       size ← st_size (PurePath.str image_path);
       insert_or_replace_image clk image_id
         (sql_value (dict_get metadata "name" (PyStr "Unknown")))
         (sql_value (dict_get metadata "version" (PyStr "1.0")))
         (sql_value (dict_get metadata "description" (PyStr EmptyString)))
         (PurePath.str target_path)
         size
         file_hash (Json.dumps metadata);;
       mret (Success (Reply.Image image_id (PurePath.str target_path) file_hash)))
    (fun e => mret (Failure (exn_str e))).

(** *** Delivery strategies *)

Definition image_url (self : DeviceManager) (image_name : string) : string :=
  "http://" +:+ pxe_server_ip self +:+ "/images/" +:+ image_name.

(** The name of a device's boot menu: [01-] and the MAC with hyphens. *)
Definition mac_config (mac_address : string) : string :=
  Str.lower (Str.replace ":" "-" mac_address).

Definition pxe_config_file (self : DeviceManager) (mac_address : string) : PurePath.t :=
  tftp_root self // "pxelinux.cfg" // ("01-" +:+ mac_config mac_address).

Definition pxe_config (self : DeviceManager) (image_name deployment_id : string) : string :=
  let nl := Str.chr Str.newline in
  "DEFAULT vdi-deploy" +:+ nl
  +:+ "LABEL vdi-deploy" +:+ nl
  +:+ "    KERNEL images/deploy/vmlinuz" +:+ nl
  +:+ "    APPEND initrd=images/deploy/initrd.img boot=live fetch="
  +:+ image_url self image_name
  +:+ " quiet splash deployment_id=" +:+ deployment_id +:+ nl.

Definition deploy_via_pxe (self : DeviceManager)
    (device : Device.row) (image : Image.row) (deployment_id : string)
    : M (result Reply.delivery) :=
  try_except
    (let mac_address := Device.mac_address device in
     let image_path := Image.file_path image in
     let image_name := PurePath.name (Path image_path) in
     let http_image_path := http_root self // image_name in
     there ← exists_ (PurePath.str http_image_path);
     (if (there : bool) then mret tt
      else copy2 (os_path image_path) (PurePath.str http_image_path));;
     let config_file := pxe_config_file self mac_address in
     write_file (PurePath.str config_file) (pxe_config self image_name deployment_id);;
     mret (Success (Reply.pxe (PurePath.str config_file) (image_url self image_name))))
    (fun e => mret (Failure (exn_str e))).

Definition usb_deploy_script (device_id deployment_id generated : string) : string :=
  let nl := Str.chr Str.newline in
  let q s := Str.chr Str.dquote +:+ s +:+ Str.chr Str.dquote in
  Str.join nl
    [ "#!/bin/bash";
      "# USB Deployment Script for " +:+ device_id;
      "# Generated: " +:+ generated;
      EmptyString;
      "DEVICE_ID=" +:+ q device_id;
      "DEPLOYMENT_ID=" +:+ q deployment_id;
      "IMAGE_FILE=" +:+ q "vdi-image.img";
      EmptyString;
      "echo " +:+ q "Starting USB deployment for device $DEVICE_ID";
      "echo " +:+ q "Deployment ID: $DEPLOYMENT_ID";
      EmptyString;
      "# Mount target device (assuming /dev/sda)";
      "TARGET_DEVICE=" +:+ q "/dev/sda";
      EmptyString;
      "echo " +:+ q "WARNING: This will erase all data on $TARGET_DEVICE";
      "read -p " +:+ q "Continue? (y/N): " +:+ " -n 1 -r";
      "echo";
      "if [[ ! $REPLY =~ ^[Yy]$ ]]; then";
      "    echo " +:+ q "Deployment cancelled";
      "    exit 1";
      "fi";
      EmptyString;
      "# Write image to device";
      "echo " +:+ q "Writing image to $TARGET_DEVICE...";
      "dd if=" +:+ q "$IMAGE_FILE" +:+ " of=" +:+ q "$TARGET_DEVICE"
        +:+ " bs=4M status=progress";
      EmptyString;
      "echo " +:+ q "Deployment completed successfully";
      "echo " +:+ q "Remove USB device and reboot to boot from installed image";
      EmptyString ].

(** [mkdir] and [chmod] leave the tracked files as they are. *)
Definition deploy_via_usb (self : DeviceManager) (clk : clock)
    (device : Device.row) (image : Image.row) (deployment_id : string)
    : M (result Reply.delivery) :=
  try_except
    (let image_path := Image.file_path image in
     let usb_package_dir := Path ("/tmp/usb-deploy-" +:+ deployment_id) in
     copy2 (os_path image_path) (PurePath.str (usb_package_dir // "vdi-image.img"));;
     generated ← datetime_now clk;
     write_file (PurePath.str (usb_package_dir // "deploy.sh"))
       (usb_deploy_script (Device.device_id device) deployment_id (isoformat generated));;
     created ← datetime_now clk;
     let info : pydict :=
       [ ("device_id", PyStr (Device.device_id device));
         ("deployment_id", PyStr deployment_id);
         ("image_name", PyStr (Image.name image));
         ("image_version", PyStr (Image.version image));
         ("created_at", PyStr (isoformat created)) ] in
     write_file (PurePath.str (usb_package_dir // "deployment-info.json"))
       (Json.dumps_indent2 info);;
     mret (Success (Reply.usb (PurePath.str usb_package_dir)
             "Copy package contents to USB drive and run deploy.sh on target device")))
    (fun e => mret (Failure (exn_str e))).

Definition deploy_via_network (self : DeviceManager)
    (device : Device.row) (image : Image.row) (deployment_id : string)
    : M (result Reply.delivery) :=
  try_except
    (mret (Success (Reply.network
             (image_url self (PurePath.name (Path (Image.file_path image))))
             (Image.sha256_hash image)
             "Network deployment requires VDI agent on target device")))
    (fun e => mret (Failure (exn_str e))).

(** *** Orchestration *)

Definition early_failure (error : string) : Reply.deploy :=
  Reply.Deploy (Failure error) None.

Definition deploy_image_to_device (self : DeviceManager) (clk : clock)
    (device_id image_id deployment_method : string) : M Reply.deploy :=
  try_except
    (device ← get_device device_id;
     match device with
     | None => mret (early_failure "Device not found")
     | Some device =>
         image ← get_image image_id;
         match image with
         | None => mret (early_failure "Image not found")
         | Some image =>
             now ← datetime_now clk;
             let deployment_id :=
               "deploy-" +:+ strftime_Ymd_HMS now +:+ "-" +:+ Str.take 8 device_id in
             insert_deployment clk deployment_id device_id image_id
               deployment_method "pending";;
             result ←
               (if String.eqb deployment_method "pxe"
                then deploy_via_pxe self device image deployment_id
                else if String.eqb deployment_method "usb"
                then deploy_via_usb self clk device image deployment_id
                else if String.eqb deployment_method "network"
                then deploy_via_network self device image deployment_id
                else mret (Failure ("Unsupported deployment method: "
                                    +:+ deployment_method)));
             let status := if success result then "deploying" else "failed" in
             let error_message :=
               match result with Failure e => Some e | Success _ => None end in
             started ← datetime_now clk;
             update_deployment status error_message (isoformat started) deployment_id;;
             mret (Reply.Deploy result (Some deployment_id))
         end
     end)
    (fun e => mret (early_failure (exn_str e))).

Definition cleanup_deployment (self : DeviceManager) (device_id : string) : M bool :=
  try_except
    (device ← get_device device_id;
     match device with
     | None => mret false
     | Some device =>
         let config_file := pxe_config_file self (Device.mac_address device) in
         present ← exists_ (PurePath.str config_file);
         (if (present : bool) then unlink (PurePath.str config_file) else mret tt);;
         mret true
     end)
    (fun _ => mret false).

(** *** Listings *)

(** [a] comes no later than [b] under [ORDER BY ... DESC]: text is
    compared byte by byte, and NULL is smaller than every text. *)
Definition newer_first (a b : option string) : bool :=
  match a, b with
  | _, None => true
  | None, Some _ => false
  | Some x, Some y => String.leb y x
  end.

Fixpoint insert_by {R} (key : R -> option string) (r : R) (l : list R) : list R :=
  match l with
  | [] => [r]
  | h :: t =>
      if newer_first (key r) (key h) then r :: l else h :: insert_by key r t
  end.

(** [ORDER BY key DESC]; rows of equal key stay in table order (SQL
    leaves their order open). *)
Definition order_by_desc {R} (key : R -> option string) (l : list R) : list R :=
  List.fold_right (insert_by key) [] l.

(** [column = ?]: NULL equals nothing. *)
Definition sql_eq (column : option string) (param : string) : bool :=
  match column with
  | Some v => String.eqb v param
  | None => false
  end.

Definition list_devices (self : DeviceManager) (status : pyval) : M (list Device.row) :=
  try_except
    (w ← get_world;
     let selected :=
       if truthy status
       then List.filter (fun r => sql_eq (Device.status r) (format status))
              (rows (devices w))
       else rows (devices w) in
     mret (order_by_desc Device.created_at selected))
    (fun _ => mret []).

Definition list_deployments (self : DeviceManager) (device_id status : pyval)
    : M (list Deployment.row) :=
  try_except
    (w ← get_world;
     let conditions :=
       (if truthy device_id
        then [fun r => String.eqb (Deployment.device_id r) (format device_id)]
        else [])
       ++ (if truthy status
           then [fun r => sql_eq (Deployment.status r) (format status)]
           else []) in
     let selected :=
       List.filter (fun r => List.forallb (fun c => c r) conditions)
         (rows (deployments w)) in
     mret (order_by_desc Deployment.started_at selected))
    (fun _ => mret []).

(* ================================================================== *)
(** ** Vocabulary of the properties                                     *)
(* ================================================================== *)

(** The canonical form [register_device] stores: lower case, colons. *)
Definition canonical_mac (mac : string) : string :=
  Str.replace "-" ":" (Str.lower mac).

Definition is_hex (c : ascii) : bool :=
  let n := nat_of_ascii c in
  ((Nat.leb 48 n && Nat.leb n 57) || (Nat.leb 65 n && Nat.leb n 70)
   || (Nat.leb 97 n && Nat.leb n 102))%bool.

Definition is_sep (c : ascii) : bool :=
  (Ascii.eqb c ":" || Ascii.eqb c "-")%bool.

(** Six pairs of hexadecimal digits, a [:] or a [-] between them. *)
Fixpoint mac_groups (n : nat) (s : string) : bool :=
  match n, s with
  | S O, String a (String b EmptyString) => (is_hex a && is_hex b)%bool
  | S (S _ as k), String a (String b (String c r)) =>
      (is_hex a && is_hex b && is_sep c && mac_groups k r)%bool
  | _, _ => false
  end.

Definition well_formed_mac (s : string) : bool := mac_groups 6 s.

(** The identifier as the data model words it: the MAC in lower case
    with its separators stripped. *)
Definition separators_stripped (mac : string) : string :=
  Str.lower (Str.replace ":" EmptyString (Str.replace "-" EmptyString mac)).

(** The rows of the device table that carry a MAC address. *)
Definition devices_with_mac (mac : string) (w : world) : list Device.row :=
  List.filter (fun r => String.eqb (Device.mac_address r) mac) (rows (devices w)).

(** The rows of the image table that carry an image id. *)
Definition images_with_id (image_id : string) (w : world) : list Image.row :=
  List.filter (fun r => String.eqb (Image.image_id r) image_id) (rows (images w)).

(** The rows of the deployment table that carry a deployment id. *)
Definition deployments_with_id (deployment_id : string) (w : world) : list Deployment.row :=
  List.filter (fun r => String.eqb (Deployment.deployment_id r) deployment_id)
    (rows (deployments w)).

(** No deployment row of [w'] reads [completed] unless [w] had it so. *)
Definition no_completed_written (w w' : world) : Prop :=
  forall r, In r (rows (deployments w')) ->
            Deployment.status r = Some "completed" ->
            In r (rows (deployments w)).

(** A manager with the default configuration, a clock, an empty world. *)
Definition default_manager : DeviceManager :=
  {| tftp_root := Path "/var/lib/tftpboot";
     http_root := Path "/var/www/html/images";
     pxe_server_ip := "192.168.100.1" |}.

Definition noon : clock :=
  {| py_now := fun _ => {| isoformat := "2024-05-01T12:00:00.000000";
                           strftime_Ymd_HMS := "20240501-120000" |};
     sql_now := fun _ => "2024-05-01 10:00:00" |}.

Definition later : clock :=
  {| py_now := fun _ => {| isoformat := "2024-05-02T09:30:00.000000";
                           strftime_Ymd_HMS := "20240502-093000" |};
     sql_now := fun _ => "2024-05-02 07:30:00" |}.

Definition empty_world : world :=
  World (Table [] 0) (Table [] 0) (Table [] 0) ∅ 0%nat.

(* ================================================================== *)
(** ** Statements that fail on the code, and worlds to run it in        *)
(* ================================================================== *)

(** A device that was deployed to and marked active by an operator. *)
Definition active_device : Device.row :=
  Device.mk 1 "aabbccddeeff" "aa:bb:cc:dd:ee:ff" (Some "10.0.0.5") (Some "kiosk-7")
    (Some "{}") (Some "kiosk-1.0-0a1b2c3d") (Some "kiosk-2.0-2cf24dba")
    (Some "active") None None (Some "2024-04-01T08:00:00.000000")
    (Some "2024-04-01 06:00:00") (Some "2024-04-01T08:00:00.000000").

Definition fleet_world : world :=
  World (Table [active_device] 1) (Table [] 0) (Table [] 0) ∅ 0%nat.

(** The claim that a missing or malformed MAC is always refused. *)
Definition mac_absent_or_malformed (info : pydict) : Prop :=
  match dict_lookup info "mac_address" with
  | Some (PyStr m) => well_formed_mac m = false
  | _ => True
  end.

Definition bad_mac_refused : Prop :=
  forall self clk info w,
    mac_absent_or_malformed info ->
    exists w' e, register_device self clk info w = (w', Ok (Failure e)).

(** The claim that cleanup reports success for every device id: doing
    nothing for an unknown device or a device without boot menu, and
    removing the boot menu otherwise. *)
Definition cleanup_always_succeeds : Prop :=
  forall self device_id w,
    exists w',
      cleanup_deployment self device_id w = (w', Ok true)
      /\ match select_device device_id w with
         | None => w' = w
         | Some device =>
             let p := PurePath.str (pxe_config_file self (Device.mac_address device)) in
             files w' !! p = None /\ (files w !! p = None -> w' = w)
         end.

(** The identifier [register_image] builds. *)
Definition image_id_of (metadata : pydict) (content : string) : string :=
  format (dict_get metadata "name" (PyStr "unknown")) +:+ "-"
  +:+ format (dict_get metadata "version" (PyStr "1.0")) +:+ "-"
  +:+ Str.take 8 (SHA256.hexdigest content).

(** The serving directory after the copy step: an existing file with the
    destination name is kept, otherwise the source is copied there. *)
Definition served (target content : string) (fs : gmap string string) : gmap string string :=
  match fs !! target with
  | Some _ => fs
  | None => <[target := content]> fs
  end.

(** The claim that the registered digest is that of the stored bytes. *)
Definition registered_hash_matches_stored : Prop :=
  forall self clk image_path metadata w w' r,
    register_image self clk image_path metadata w = (w', Ok (Success r)) ->
    exists stored row,
      files w' !! Reply.file_path r = Some stored
      /\ Reply.sha256_hash r = SHA256.hexdigest stored
      /\ images_with_id (Reply.image_id r) w' = [row]
      /\ Image.file_path row = Reply.file_path r
      /\ Image.sha256_hash row = Some (SHA256.hexdigest stored).

Definition kiosk_metadata : pydict :=
  [("name", PyStr "kiosk"); ("version", PyStr "2.0")].

(** The serving directory already holds another [base.img]. *)
Definition stale_world : world :=
  World (Table [] 0) (Table [] 0) (Table [] 0)
    (<["/srv/build/base.img" := "new build"]>
       (<["/var/www/html/images/base.img" := "old build"]> ∅)) 0%nat.

(** Only the freshly built image is on disk. *)
Definition build_world : world :=
  World (Table [] 0) (Table [] 0) (Table [] 0)
    (<["/srv/build/base.img" := "new build"]> ∅) 0%nat.

Definition build_registered : world * outcome (result Reply.image) :=
  Eval vm_compute in
    register_image default_manager noon "/srv/build/base.img" kiosk_metadata build_world.

Definition build_reply : Reply.image :=
  Reply.Image "kiosk-2.0-9893f46b" "/var/www/html/images/base.img"
    "9893f46b04f2b89047dac4860978f401114b41f20aedf9abac1a7bb218496321".

(** The claim that registering the same bytes again, under the same name
    and version, stores nothing new. *)
Definition same_bytes_registration_idempotent : Prop :=
  forall self clk1 clk2 path1 path2 metadata1 metadata2 w w1 w2 r1 r2 content,
    files w !! PurePath.str (Path path1) = Some content ->
    files w1 !! PurePath.str (Path path2) = Some content ->
    dict_lookup metadata1 "name" = dict_lookup metadata2 "name" ->
    dict_lookup metadata1 "version" = dict_lookup metadata2 "version" ->
    register_image self clk1 path1 metadata1 w = (w1, Ok (Success r1)) ->
    register_image self clk2 path2 metadata2 w1 = (w2, Ok (Success r2)) ->
    Reply.image_id r1 = Reply.image_id r2
    /\ files w2 = files w1
    /\ exists row, images_with_id (Reply.image_id r2) w2 = [row].

(** Two builds with the same bytes under different file names. *)
Definition twin_world : world :=
  World (Table [] 0) (Table [] 0) (Table [] 0)
    (<["/srv/build/a.img" := "image bytes"]>
       (<["/srv/build/b.img" := "image bytes"]> ∅)) 0%nat.

Definition build_registered_again : world * outcome (result Reply.image) :=
  Eval vm_compute in
    register_image default_manager later "/srv/build/base.img" kiosk_metadata
      (fst build_registered).

(** The calls that write: the commands of the front end but [list]. *)
Inductive call :=
| CallRegisterDevice (clk : clock) (device_info : pydict)
| CallRegisterImage (clk : clock) (image_path : string) (metadata : pydict)
| CallDeploy (clk : clock) (device_id image_id deployment_method : string)
| CallCleanup (device_id : string).

Definition perform (self : DeviceManager) (c : call) (w : world) : world :=
  match c with
  | CallRegisterDevice clk device_info => fst (register_device self clk device_info w)
  | CallRegisterImage clk image_path metadata =>
      fst (register_image self clk image_path metadata w)
  | CallDeploy clk device_id image_id deployment_method =>
      fst (deploy_image_to_device self clk device_id image_id deployment_method w)
  | CallCleanup device_id => fst (cleanup_deployment self device_id w)
  end.

(** One device and one image registered, nothing deployed yet. *)
Definition kiosk_world : world :=
  Eval vm_compute in
    fst (register_image default_manager noon "/srv/build/base.img" kiosk_metadata
           (fst (register_device default_manager noon
                   [("mac_address", PyStr "AA:BB:CC:DD:EE:FF")] build_world))).

Definition first_deploy : world * outcome Reply.deploy :=
  Eval vm_compute in
    deploy_image_to_device default_manager noon "aabbccddeeff" "kiosk-2.0-9893f46b"
      "pxe" kiosk_world.

Definition second_deploy : world * outcome Reply.deploy :=
  Eval vm_compute in
    deploy_image_to_device default_manager later "aabbccddeeff" "kiosk-2.0-9893f46b"
      "pxe" (fst first_deploy).

Definition kiosk_boot_menu : Reply.delivery :=
  Reply.pxe "/var/lib/tftpboot/pxelinux.cfg/01-aa-bb-cc-dd-ee-ff"
    "http://192.168.100.1/images/base.img".

(** The UNIQUE columns hold no value twice. *)
Definition unique_keys (w : world) : Prop :=
  List.NoDup (List.map Device.device_id (rows (devices w)))
  /\ List.NoDup (List.map Device.mac_address (rows (devices w)))
  /\ List.NoDup (List.map Image.image_id (rows (images w)))
  /\ List.NoDup (List.map Deployment.deployment_id (rows (deployments w))).

(** The listing is in [ORDER BY key DESC] order. *)
Definition newest_first {R} (key : R -> option string) (l : list R) : Prop :=
  Sorted.Sorted (fun a b => newer_first (key a) (key b) = true) l.


(** The strategy [deploy_image_to_device] picks for a method. *)
Definition dispatch (self : DeviceManager) (clk : clock) (method : string)
    (device : Device.row) (image : Image.row) (deployment_id : string)
    : M (result Reply.delivery) :=
  if String.eqb method "pxe"
  then deploy_via_pxe self device image deployment_id
  else if String.eqb method "usb"
  then deploy_via_usb self clk device image deployment_id
  else if String.eqb method "network"
  then deploy_via_network self device image deployment_id
  else mret (Failure ("Unsupported deployment method: " +:+ method)).

(** The id [deploy_image_to_device] allocates in world [w]. *)
Definition deployment_id_at (clk : clock) (device_id : string) (w : world) : string :=
  "deploy-" +:+ strftime_Ymd_HMS (py_now clk (tick w)) +:+ "-" +:+ Str.take 8 device_id.

(** The world after the pending row is inserted. *)
Definition pending_world (clk : clock) (device_id image_id method : string)
    (w : world) : world :=
  World (devices w)
    (Table (rows (deployments w)
            ++ [Deployment.mk (seq (deployments w) + 1)
                  (deployment_id_at clk device_id w) device_id image_id method
                  (Some "pending") (Some 0) (Some (sql_now clk (S (tick w))))
                  None None])
           (seq (deployments w) + 1))
    (images w) (files w) (S (S (tick w))).

(** The reservation file after the step, from what it held before. *)
Definition reservation_content (mac line : string) (old : option string) : string :=
  match old with
  | None => line
  | Some old =>
      if Str.contains mac old
      then Str.join (Str.chr Str.newline)
             (List.map (fun l => if Str.contains mac l then line else l)
                (Str.split Str.newline old))
      else old +:+ Str.chr Str.newline +:+ line
  end.

(** A second device, registered under another id and MAC. *)
Definition lobby_device : Device.row :=
  Device.mk 2 "lobby" "aa:bb:cc:dd:ee:02" None None (Some "{}") None None
    (Some "registered") None None (Some "2024-04-02T08:00:00.000000")
    (Some "2024-04-02 06:00:00") (Some "2024-04-02T08:00:00.000000").

Definition two_device_world : world :=
  World (Table [active_device; lobby_device] 2) (Table [] 0) (Table [] 0) ∅ 0%nat.

Definition hyphen_registered : world * outcome (result Reply.device) :=
  Eval vm_compute in
    register_device default_manager noon
      [("mac_address", PyStr "AA-BB-CC-DD-EE-FF")] empty_world.

(** An image row whose file is gone. *)
Definition orphan_image : Image.row :=
  Image.mk 1 "kiosk-1.0-0a1b2c3d" "kiosk" "1.0" (Some EmptyString)
    "/var/www/html/images/old.img" (Some 9) None (Some "2024-04-01 06:00:00")
    (Some "{}").

Definition orphan_world : world :=
  World (Table [active_device] 1) (Table [] 0) (Table [orphan_image] 1) ∅ 0%nat.

(** A reservation file that knows two devices. *)
Definition reserved_world : world :=
  World (Table [] 0) (Table [] 0) (Table [] 0)
    (<[os_path reservations_file
       := "dhcp-host=aa:bb:cc:dd:ee:01,10.0.0.1,24h" +:+ Str.chr Str.newline
          +:+ "dhcp-host=aa:bb:cc:dd:ee:ff,10.0.0.4,24h"]> ∅) 0%nat.

Definition reserved_again : world * outcome unit :=
  Eval vm_compute in
    create_dhcp_reservation "aa:bb:cc:dd:ee:ff" (PyStr "10.0.0.5") reserved_world.

(* ================================================================== *)
(** ** Basic facts                                                      *)
(* ================================================================== *)

(** The digest agrees with the published test vectors. *)
Example sha256_empty :
  SHA256.hexdigest EmptyString
  = "e3b0c44298fc1c149afbf4c8996fb92427ae41e4649b934ca495991b7852b855".
Proof. vm_compute. reflexivity. Qed.

Example sha256_abc :
  SHA256.hexdigest "abc"
  = "ba7816bf8f01cfea414140de5dae2223b00361a396177a9cb410ff61f20015ad".
Proof. vm_compute. reflexivity. Qed.

Example sha256_two_blocks :
  SHA256.hexdigest "abcdbcdecdefdefgefghfghighijhijkijkljklmklmnlmnomnopnopq"
  = "248d6a61d20638b8e5c026930c3e6039a33ce45964ff2167f6ecedd419db06c1".
Proof. vm_compute. reflexivity. Qed.


Ltac unfold_monad :=
  unfold mbind, M_bind, mret, M_ret, try_except, get_world, modify, raise.

Lemma filter_nothing {A} (f : A -> bool) (l : list A) :
  (forall x, In x l -> f x = false) -> List.filter f l = [].
Proof.
  induction l as [|a l IH]; intros H; simpl; [reflexivity|].
  rewrite (H a (or_introl eq_refl)). apply IH. intros x Hx. apply H. now right.
Qed.

Lemma filter_replaced {A} (hit conflict : A -> bool) (l : list A) (new : A) :
  (forall x, hit x = true -> conflict x = true) ->
  hit new = true ->
  List.filter hit (List.filter (fun x => negb (conflict x)) l ++ [new]) = [new].
Proof.
  intros Himp Hnew. rewrite List.filter_app. simpl. rewrite Hnew.
  rewrite filter_nothing; [reflexivity|].
  intros x Hx. apply List.filter_In in Hx as [_ Hx].
  destruct (hit x) eqn:E; [|reflexivity].
  apply Himp in E. rewrite E in Hx. discriminate.
Qed.

(** The reservation step only touches files, and always returns. *)
Lemma create_dhcp_reservation_frame mac ip w :
  exists f, create_dhcp_reservation mac ip w = (set_files f w, Ok tt).
Proof.
  unfold create_dhcp_reservation.
  destruct (truthy ip); simpl.
  - unfold_monad. unfold exists_, read_file, write_file. unfold_monad.
    destruct (bool_decide (is_Some (files w !! os_path reservations_file))) eqn:E.
    + apply bool_decide_eq_true in E. destruct E as [c Hc]. rewrite Hc.
      destruct (Str.contains mac c); eexists; reflexivity.
    + eexists; reflexivity.
  - exists (files w). destruct w; reflexivity.
Qed.

(** Registration with a MAC that is a string: it succeeds, replaces the
    rows that share the device id or the MAC, and appends the new row. *)
Lemma register_device_str_mac self clk info w m :
  dict_lookup info "mac_address" = Some (PyStr m) ->
  exists device_id f row,
    register_device self clk info w
    = (World (Table (List.filter
                       (fun r => negb (device_conflict device_id (canonical_mac m) r))
                       (rows (devices w)) ++ [row])
                    (seq (devices w) + 1))
             (deployments w) (images w) f (3 + tick w),
       Ok (Success (Reply.Device device_id (canonical_mac m))))
    /\ device_id
       = (if truthy (dict_get info "device_id" PyNone)
          then format (dict_get info "device_id" PyNone)
          else Str.lower (Str.replace ":" EmptyString m))
    /\ Device.device_id row = device_id
    /\ Device.mac_address row = canonical_mac m
    /\ Device.ip_address row = sql_value (dict_get info "ip_address" PyNone)
    /\ Device.status row = Some "registered"
    /\ Device.current_image row = None
    /\ Device.target_image row = None
    /\ Device.created_at row = Some (sql_now clk (2 + tick w)).
Proof.
  intros Hm.
  unfold register_device, getitem, generate_device_id, str_method,
    insert_or_replace_device, datetime_now, CURRENT_TIMESTAMP.
  unfold_monad. rewrite Hm.
  set (did := if truthy (dict_get info "device_id" PyNone)
              then format (dict_get info "device_id" PyNone)
              else Str.lower (Str.replace ":" EmptyString m)).
  destruct (truthy (dict_get info "device_id" PyNone)) eqn:Ht; simpl;
    match goal with
    | |- context [create_dhcp_reservation ?a ?b ?w0] =>
        destruct (create_dhcp_reservation_frame a b w0) as [f Hf]; rewrite Hf
    end;
    exists did, f; eexists; (split; [reflexivity|]); simpl; repeat split; reflexivity.
Qed.

Lemma devices_with_mac_after_replace device_id mac kept_from row t' dep img f n :
  Device.mac_address row = mac ->
  devices_with_mac mac
    (World (Table (List.filter (fun r => negb (device_conflict device_id mac r)) kept_from
                   ++ [row]) t') dep img f n)
  = [row].
Proof.
  intros Hrow. unfold devices_with_mac. simpl.
  apply filter_replaced.
  - intros x Hx. unfold device_conflict. rewrite Hx. apply orb_true_r.
  - rewrite Hrow. apply String.eqb_refl.
Qed.

(* ================================================================== *)
(** ** Device registry                                                  *)
(* ================================================================== *)

(** C4. Two registrations whose MAC addresses have the same canonical
    form (the IP addresses may differ) both succeed and leave exactly one
    device row for that MAC; the row carries the IP address of the second
    registration. *)
Theorem register_same_mac_twice self clk1 clk2 info1 info2 w m1 m2 :
  dict_lookup info1 "mac_address" = Some (PyStr m1) ->
  dict_lookup info2 "mac_address" = Some (PyStr m2) ->
  canonical_mac m1 = canonical_mac m2 ->
  exists w1 r1 w2 r2 row,
    register_device self clk1 info1 w = (w1, Ok (Success r1))
    /\ register_device self clk2 info2 w1 = (w2, Ok (Success r2))
    /\ Reply.mac_address r1 = Reply.mac_address r2
    /\ devices_with_mac (Reply.mac_address r2) w2 = [row]
    /\ Device.ip_address row = sql_value (dict_get info2 "ip_address" PyNone).
Proof.
  intros H1 H2 Hsame.
  destruct (register_device_str_mac self clk1 info1 w m1 H1)
    as (id1 & f1 & row1 & E1 & _).
  eexists; eexists. rewrite E1.
  match goal with
  | |- context [register_device self clk2 info2 ?w1] =>
      destruct (register_device_str_mac self clk2 info2 w1 m2 H2)
        as (id2 & f2 & row2 & E2 & _ & _ & Hmac & Hip & _)
  end.
  eexists; eexists; exists row2. rewrite E2.
  split; [reflexivity|]. split; [reflexivity|]. simpl.
  split; [exact Hsame|]. split; [|exact Hip].
  apply devices_with_mac_after_replace. exact Hmac.
Qed.

Lemma register_same_mac_twice_witness :
  exists w1 r1 w2 r2 row,
    register_device default_manager noon
      [("mac_address", PyStr "AA:BB:CC:DD:EE:FF"); ("ip_address", PyStr "10.0.0.5")]
      empty_world = (w1, Ok (Success r1))
    /\ register_device default_manager later
         [("mac_address", PyStr "aa-bb-cc-dd-ee-ff"); ("ip_address", PyStr "10.0.0.9")]
         w1 = (w2, Ok (Success r2))
    /\ Reply.mac_address r1 = Reply.mac_address r2
    /\ devices_with_mac (Reply.mac_address r2) w2 = [row]
    /\ Device.ip_address row = Some "10.0.0.9".
Proof.
  apply (register_same_mac_twice default_manager noon later
           [("mac_address", PyStr "AA:BB:CC:DD:EE:FF"); ("ip_address", PyStr "10.0.0.5")]
           [("mac_address", PyStr "aa-bb-cc-dd-ee-ff"); ("ip_address", PyStr "10.0.0.9")]
           empty_world "AA:BB:CC:DD:EE:FF" "aa-bb-cc-dd-ee-ff");
    reflexivity.
Defined.

(** C10. Registering again a device whose MAC is already in the table
    keeps none of the columns the write leaves out: whatever the previous
    row held, the one row for that MAC afterwards has status
    [registered], no current and no target image, and the creation time
    read during this registration. *)
Theorem reregistration_resets_columns self clk info w m old :
  dict_lookup info "mac_address" = Some (PyStr m) ->
  In old (rows (devices w)) ->
  Device.mac_address old = canonical_mac m ->
  exists w' r row,
    register_device self clk info w = (w', Ok (Success r))
    /\ devices_with_mac (canonical_mac m) w' = [row]
    /\ Device.status row = Some "registered"
    /\ Device.current_image row = None
    /\ Device.target_image row = None
    /\ Device.created_at row = Some (sql_now clk (2 + tick w))
    /\ (In old (rows (devices w')) -> old = row).
Proof.
  intros Hm _ Hold.
  destruct (register_device_str_mac self clk info w m Hm)
    as (id & f & row & E & _ & _ & Hmac & _ & Hst & Hcur & Htgt & Hcre).
  eexists; eexists; exists row. rewrite E.
  assert (Hone : devices_with_mac (canonical_mac m)
                   (World (Table (List.filter
                                    (fun r => negb (device_conflict id (canonical_mac m) r))
                                    (rows (devices w)) ++ [row])
                                 (seq (devices w) + 1))
                          (deployments w) (images w) f (3 + tick w)) = [row])
    by (apply devices_with_mac_after_replace; exact Hmac).
  split; [reflexivity|]. split; [exact Hone|].
  repeat (split; [assumption|]).
  intros Hin.
  assert (Hin' : In old [row]).
  { rewrite <- Hone. unfold devices_with_mac. apply List.filter_In.
    split; [exact Hin|]. rewrite Hold. apply String.eqb_refl. }
  destruct Hin' as [->|[]]. reflexivity.
Qed.

Lemma reregistration_resets_columns_witness :
  exists w' r row,
    register_device default_manager later
      [("mac_address", PyStr "AA:BB:CC:DD:EE:FF")] fleet_world
    = (w', Ok (Success r))
    /\ devices_with_mac "aa:bb:cc:dd:ee:ff" w' = [row]
    /\ Device.status row = Some "registered"
    /\ Device.current_image row = None
    /\ Device.target_image row = None
    /\ Device.created_at row = Some "2024-05-02 07:30:00"
    /\ (In active_device (rows (devices w')) -> active_device = row).
Proof.
  apply (reregistration_resets_columns default_manager later
           [("mac_address", PyStr "AA:BB:CC:DD:EE:FF")] fleet_world
           "AA:BB:CC:DD:EE:FF" active_device).
  - reflexivity.
  - simpl. left. reflexivity.
  - reflexivity.
Defined.

(** C6, as stated, fails: [not-a-mac] is no hardware address, and the
    registration succeeds and stores it. *)
Lemma malformed_mac_is_registered : ~ bad_mac_refused.
Proof.
  intros H.
  destruct (H default_manager noon [("mac_address", PyStr "not-a-mac")]
              empty_world eq_refl) as (w' & e & He).
  apply (f_equal snd) in He. vm_compute in He. congruence.
Qed.

(** C6, amended. A registration without MAC (the key missing, or [None])
    returns a failure result carrying the text of the exception and
    changes nothing; a MAC that is a string is not validated: whatever
    its form, the registration succeeds and stores its canonical form. *)
Theorem register_device_mac_check self clk info w :
  match dict_lookup info "mac_address" with
  | None =>
      register_device self clk info w
      = (w, Ok (Failure (exn_str (KeyError "mac_address"))))
  | Some PyNone =>
      register_device self clk info w
      = (w, Ok (Failure (exn_str (AttributeError
                 (if truthy (dict_get info "device_id" PyNone)
                  then "lower" else "replace")))))
  | Some (PyStr m) =>
      exists w' device_id,
        register_device self clk info w
        = (w', Ok (Success (Reply.Device device_id (canonical_mac m))))
        /\ exists row, devices_with_mac (canonical_mac m) w' = [row]
  end.
Proof.
  destruct (dict_lookup info "mac_address") as [[|m]|] eqn:Hm.
  - unfold register_device, getitem, generate_device_id, str_method.
    unfold_monad. rewrite Hm.
    destruct (truthy (dict_get info "device_id" PyNone)); reflexivity.
  - destruct (register_device_str_mac self clk info w m Hm)
      as (id & f & row & E & _ & _ & Hmac & _).
    eexists; exists id. rewrite E. split; [reflexivity|].
    exists row. apply devices_with_mac_after_replace. exact Hmac.
  - unfold register_device, getitem, generate_device_id, str_method.
    unfold_monad. rewrite Hm.
    destruct (truthy (dict_get info "device_id" PyNone)); reflexivity.
Qed.

Lemma replace_absent c s :
  Str.contains (Str.chr c) s = false -> Str.replace c EmptyString s = s.
Proof.
  induction s as [|a s IH]; simpl; [reflexivity|].
  destruct (ascii_dec c a) as [->|Hne].
  - destruct s; discriminate.
  - rewrite (proj2 (Ascii.eqb_neq a c)) by congruence.
    intros H. rewrite IH; [reflexivity|exact H].
Qed.

(** With colons only, the derived identifier is the MAC in lower case
    without separators. *)
Lemma device_id_of_colon_mac self clk info w m :
  dict_lookup info "mac_address" = Some (PyStr m) ->
  truthy (dict_get info "device_id" PyNone) = false ->
  Str.contains "-" m = false ->
  exists w',
    register_device self clk info w
    = (w', Ok (Success (Reply.Device (separators_stripped m) (canonical_mac m)))).
Proof.
  intros Hm Hid Hcolon.
  destruct (register_device_str_mac self clk info w m Hm)
    as (id & f & row & E & Hdid & _).
  rewrite Hid in Hdid. eexists. rewrite E. subst id.
  unfold separators_stripped. rewrite (replace_absent "-" m Hcolon). reflexivity.
Qed.

Lemma device_id_of_colon_mac_witness :
  exists w',
    register_device default_manager noon
      [("mac_address", PyStr "AA:BB:CC:DD:EE:FF")] empty_world
    = (w', Ok (Success (Reply.Device "aabbccddeeff" "aa:bb:cc:dd:ee:ff"))).
Proof.
  apply (device_id_of_colon_mac default_manager noon
           [("mac_address", PyStr "AA:BB:CC:DD:EE:FF")] empty_world
           "AA:BB:CC:DD:EE:FF"); reflexivity.
Defined.

(** C7. A well-formed MAC written with hyphens is accepted, and the
    identifier derived for it keeps the hyphens: [generate_device_id]
    receives the MAC as given, before the hyphens are turned into colons,
    and strips colons only.  The data model asks for [aabbccddeeff]. *)
Theorem device_id_of_hyphen_mac :
  well_formed_mac "AA-BB-CC-DD-EE-FF" = true
  /\ separators_stripped "AA-BB-CC-DD-EE-FF" = "aabbccddeeff"
  /\ exists w',
       register_device default_manager noon
         [("mac_address", PyStr "AA-BB-CC-DD-EE-FF")] empty_world
       = (w', Ok (Success (Reply.Device "aa-bb-cc-dd-ee-ff" "aa:bb:cc:dd:ee:ff"))).
Proof.
  split; [reflexivity|]. split; [reflexivity|].
  eexists. vm_compute. reflexivity.
Qed.

(* ================================================================== *)
(** ** Deployment orchestrator                                          *)
(* ================================================================== *)

Lemma find_none_iff {A} (f : A -> bool) (l : list A) :
  List.find f l = None <-> forall x, In x l -> f x = false.
Proof.
  split.
  - intros H x Hx. exact (List.find_none f l H x Hx).
  - induction l as [|a l IH]; intros H; simpl; [reflexivity|].
    rewrite (H a (or_introl eq_refl)). apply IH. intros x Hx. apply H. now right.
Qed.

(** C5. Deploying to a device id that no device row carries returns the
    failure [Device not found] and leaves the world, hence the
    deployments table, exactly as it was. *)
Theorem deploy_unknown_device self clk device_id image_id method w :
  (forall r, In r (rows (devices w)) -> Device.device_id r <> device_id) ->
  deploy_image_to_device self clk device_id image_id method w
  = (w, Ok (Reply.Deploy (Failure "Device not found") None)).
Proof.
  intros Habsent.
  assert (Hsel : select_device device_id w = None).
  { apply find_none_iff. intros r Hr. apply String.eqb_neq. exact (Habsent r Hr). }
  unfold deploy_image_to_device, get_device. unfold_monad.
  rewrite Hsel. reflexivity.
Qed.

Lemma deploy_unknown_device_witness :
  deploy_image_to_device default_manager noon "ghost" "kiosk-2.0-2cf24dba" "pxe"
    fleet_world
  = (fleet_world, Ok (Reply.Deploy (Failure "Device not found") None))
  /\ rows (deployments fleet_world) = [].
Proof.
  split; [|reflexivity].
  apply (deploy_unknown_device default_manager noon "ghost" "kiosk-2.0-2cf24dba"
           "pxe" fleet_world).
  intros r [<-|[]]. discriminate.
Defined.

(** C2, as stated, fails: for a device id that is not registered the
    cleanup returns [False]. *)
Lemma cleanup_unknown_device_fails : ~ cleanup_always_succeeds.
Proof.
  intros H. destruct (H default_manager "ghost" empty_world) as (w' & Hw & _).
  apply (f_equal snd) in Hw. vm_compute in Hw. discriminate Hw.
Qed.

(** C2, amended. For a registered device the cleanup returns [True]: it
    changes nothing when the device has no boot menu file and removes
    the file when there is one.  For a device id that is not registered
    it changes nothing and returns [False]. *)
Theorem cleanup_deployment_cases self device_id w :
  match select_device device_id w with
  | None => cleanup_deployment self device_id w = (w, Ok false)
  | Some device =>
      let p := PurePath.str (pxe_config_file self (Device.mac_address device)) in
      match files w !! p with
      | None => cleanup_deployment self device_id w = (w, Ok true)
      | Some _ =>
          cleanup_deployment self device_id w
          = (set_files (delete p (files w)) w, Ok true)
          /\ files (set_files (delete p (files w)) w) !! p = None
      end
  end.
Proof.
  unfold cleanup_deployment, get_device, exists_, unlink. unfold_monad.
  destruct (select_device device_id w) as [device|] eqn:Hsel; [|reflexivity].
  cbv zeta.
  set (p := PurePath.str (pxe_config_file self (Device.mac_address device))).
  destruct (files w !! p) as [c|] eqn:Hf.
  - rewrite bool_decide_eq_true_2 by eauto.
    cbv beta. rewrite Hf. split; [reflexivity|]. apply lookup_delete_eq.
  - rewrite bool_decide_eq_false_2 by (intros [? ?]; discriminate).
    reflexivity.
Qed.

(** *** What a delivery strategy does to the world *)

Lemma deploy_via_pxe_cases self device image deployment_id w :
  let image_name := PurePath.name (Path (Image.file_path image)) in
  let http := PurePath.str (http_root self // image_name) in
  let cfg := PurePath.str (pxe_config_file self (Device.mac_address device)) in
  (exists f,
      deploy_via_pxe self device image deployment_id w
      = (set_files (<[cfg := pxe_config self image_name deployment_id]> f) w,
         Ok (Success (Reply.pxe cfg (image_url self image_name))))
      /\ (f = files w \/ exists c, f = <[http := c]> (files w)))
  \/ (exists e, deploy_via_pxe self device image deployment_id w = (w, Ok (Failure e))).
Proof.
  cbv zeta. unfold deploy_via_pxe, exists_, copy2, write_file. unfold_monad.
  set (http := PurePath.str (http_root self // PurePath.name (Path (Image.file_path image)))).
  set (cfg := PurePath.str (pxe_config_file self (Device.mac_address device))).
  destruct (bool_decide (is_Some (files w !! http))).
  - left. exists (files w). split; [reflexivity|]. now left.
  - destruct (files w !! os_path (Image.file_path image)) as [c|].
    + destruct (String.eqb (os_path (Image.file_path image)) http).
      * right. eexists. reflexivity.
      * left. exists (<[http := c]> (files w)). split; [reflexivity|].
        right. exists c. reflexivity.
    + right. eexists. reflexivity.
Qed.

Lemma deploy_via_usb_frame self clk device image deployment_id w :
  exists f n r,
    deploy_via_usb self clk device image deployment_id w
    = (World (devices w) (deployments w) (images w) f n, Ok r).
Proof.
  unfold deploy_via_usb, copy2, write_file, datetime_now. unfold_monad.
  destruct (files w !! os_path (Image.file_path image)) as [c|].
  - match goal with
    | |- context [String.eqb ?a ?b] => destruct (String.eqb a b)
    end.
    + exists (files w), (tick w). eexists. destruct w; reflexivity.
    + eexists; eexists; eexists. reflexivity.
  - exists (files w), (tick w). eexists. destruct w; reflexivity.
Qed.

Lemma strategy_frame self clk method device image deployment_id w :
  exists f n r,
    (if String.eqb method "pxe"
     then deploy_via_pxe self device image deployment_id
     else if String.eqb method "usb"
     then deploy_via_usb self clk device image deployment_id
     else if String.eqb method "network"
     then deploy_via_network self device image deployment_id
     else mret (Failure ("Unsupported deployment method: " +:+ method))) w
    = (World (devices w) (deployments w) (images w) f n, Ok r).
Proof.
  destruct (String.eqb method "pxe").
  - destruct (deploy_via_pxe_cases self device image deployment_id w)
      as [(f & E & _)|(e & E)]; rewrite E.
    + eexists; exists (tick w); eexists. reflexivity.
    + exists (files w), (tick w); eexists. destruct w; reflexivity.
  - destruct (String.eqb method "usb"); [apply deploy_via_usb_frame|].
    exists (files w), (tick w).
    destruct (String.eqb method "network"); eexists; destruct w; reflexivity.
Qed.

Lemma update_misses (upd : Deployment.row -> Deployment.row) deployment_id l :
  (forall r, String.eqb (Deployment.deployment_id r) deployment_id = false -> upd r = r) ->
  List.existsb (fun r => String.eqb (Deployment.deployment_id r) deployment_id) l = false ->
  List.map upd l = l.
Proof.
  intros Hupd. induction l as [|a l IH]; simpl; [reflexivity|].
  intros H. apply orb_false_elim in H as [Ha Hl].
  rewrite (Hupd a Ha), (IH Hl). reflexivity.
Qed.

(** The shape of every deployment: either it stops before the
    deployment row is inserted and no table changes, or it inserts one
    row under a fresh id and sets it from the strategy's result. *)
Lemma deploy_image_to_device_cases self clk device_id image_id method w :
  (exists e n,
      deploy_image_to_device self clk device_id image_id method w
      = (set_tick n w, Ok (Reply.Deploy (Failure e) None)))
  \/ (exists deployment_id result f n started,
        deploy_image_to_device self clk device_id image_id method w
        = (World (devices w)
                 (Table (rows (deployments w)
                         ++ [Deployment.mk (seq (deployments w) + 1) deployment_id
                               device_id image_id method
                               (Some (if success result then "deploying" else "failed"))
                               (Some 0) (Some (isoformat (py_now clk started))) None
                               (match result with
                                | Failure e => Some e
                                | Success _ => None
                                end)])
                        (seq (deployments w) + 1))
                 (images w) f n,
           Ok (Reply.Deploy result (Some deployment_id)))
        /\ List.existsb (fun r => String.eqb (Deployment.deployment_id r) deployment_id)
             (rows (deployments w)) = false).
Proof.
  unfold deploy_image_to_device, get_device, get_image, insert_deployment,
    update_deployment, datetime_now, CURRENT_TIMESTAMP.
  unfold_monad.
  destruct (select_device device_id w) as [device|];
    [|left; exists "Device not found", (tick w); destruct w; reflexivity].
  destruct (select_image image_id w) as [image|];
    [|left; exists "Image not found", (tick w); destruct w; reflexivity].
  cbv beta iota.
  set (depid := "deploy-" +:+ strftime_Ymd_HMS (py_now clk (tick w)) +:+ "-"
                +:+ Str.take 8 device_id).
  cbn [deployments set_tick rows].
  destruct (List.existsb (fun r => String.eqb (Deployment.deployment_id r) depid)
              (rows (deployments w))) eqn:Hfresh.
  - left. eexists; exists (S (tick w)). reflexivity.
  - right.
    match goal with
    | |- context [(if String.eqb method "pxe" then _ else _) ?w1] =>
        destruct (strategy_frame self clk method device image depid w1)
          as (f & n & r & E)
    end.
    unfold mret, M_ret in E. rewrite E. cbn -[String.eqb Str.take].
    exists depid, r, f, (S n), n. split; [|exact Hfresh].
    rewrite List.map_app. simpl. rewrite String.eqb_refl.
    rewrite (update_misses _ depid) by
      (try exact Hfresh; intros x Hx; rewrite Hx; reflexivity).
    reflexivity.
Qed.

(* ================================================================== *)
(** ** Image registry                                                   *)
(* ================================================================== *)

(** Every run of [register_image], by the source file and the NOT NULL
    columns. *)
Lemma register_image_cases self clk image_path metadata w :
  let src := PurePath.str (Path image_path) in
  let target := PurePath.str (http_root self // PurePath.name (Path image_path)) in
  match files w !! src with
  | None =>
      register_image self clk image_path metadata w
      = (w, Ok (Failure "Image file does not exist"))
  | Some content =>
      match sql_value (dict_get metadata "name" (PyStr "Unknown")),
            sql_value (dict_get metadata "version" (PyStr "1.0")) with
      | Some name, Some version =>
          register_image self clk image_path metadata w
          = (World (devices w) (deployments w)
               (Table (List.filter
                         (fun r => negb (String.eqb (Image.image_id r)
                                           (image_id_of metadata content)))
                         (rows (images w))
                       ++ [Image.mk (seq (images w) + 1)
                             (image_id_of metadata content) name version
                             (sql_value (dict_get metadata "description" (PyStr EmptyString)))
                             target (Some (Z.of_nat (String.length content)))
                             (Some (SHA256.hexdigest content))
                             (Some (sql_now clk (tick w)))
                             (Some (Json.dumps metadata))])
                      (seq (images w) + 1))
               (served target content (files w)) (S (tick w)),
             Ok (Success (Reply.Image (image_id_of metadata content) target
                            (SHA256.hexdigest content))))
      | _, _ =>
          exists e,
            register_image self clk image_path metadata w
            = (set_files (served target content (files w)) w, Ok (Failure e))
      end
  end.
Proof.
  cbv zeta.
  set (src := PurePath.str (Path image_path)).
  set (target := PurePath.str (http_root self // PurePath.name (Path image_path))).
  unfold register_image, exists_, read_file, st_size, copy2, insert_or_replace_image,
    CURRENT_TIMESTAMP, image_id_of.
  unfold_monad. cbv zeta. fold src. fold target.
  destruct (files w !! src) as [content|] eqn:Hsrc.
  2:{ rewrite bool_decide_eq_false_2 by (intros [? ?]; discriminate). reflexivity. }
  rewrite bool_decide_eq_true_2 by eauto. cbn [negb].
  cbv beta iota. rewrite Hsrc. cbv beta iota. unfold served, read_file.
  destruct (files w !! target) as [c0|] eqn:Htgt.
  - rewrite bool_decide_eq_true_2 by eauto. cbv beta iota. rewrite Hsrc.
    destruct (dict_get metadata "name" (PyStr "Unknown")) as [|name];
      cbn [sql_value];
      [eexists; destruct w; reflexivity|].
    destruct (dict_get metadata "version" (PyStr "1.0")) as [|version];
      cbn [sql_value];
      [eexists; destruct w; reflexivity|].
    destruct w; reflexivity.
  - rewrite bool_decide_eq_false_2 by (intros [? ?]; discriminate).
    cbv beta iota. rewrite Hsrc.
    assert (Hne : src <> target) by (intros E; rewrite E in Hsrc; congruence).
    rewrite (proj2 (String.eqb_neq src target) Hne).
    cbn [files set_files]. rewrite lookup_insert_ne by congruence. rewrite Hsrc.
    destruct (dict_get metadata "name" (PyStr "Unknown")) as [|name];
      cbn [sql_value];
      [eexists; destruct w; reflexivity|].
    destruct (dict_get metadata "version" (PyStr "1.0")) as [|version];
      cbn [sql_value];
      [eexists; destruct w; reflexivity|].
    destruct w; reflexivity.
Qed.

Lemma images_with_id_after_replace image_id kept_from row t' dev dep f n :
  Image.image_id row = image_id ->
  images_with_id image_id
    (World dev dep
       (Table (List.filter (fun r => negb (String.eqb (Image.image_id r) image_id)) kept_from
               ++ [row]) t') f n)
  = [row].
Proof.
  intros Hrow. unfold images_with_id. simpl.
  apply (filter_replaced _ (fun r => String.eqb (Image.image_id r) image_id)).
  - auto.
  - rewrite Hrow. apply String.eqb_refl.
Qed.

(** A successful registration, read off [register_image_cases]. *)
Lemma register_image_success self clk image_path metadata w w' r :
  register_image self clk image_path metadata w = (w', Ok (Success r)) ->
  exists content row,
    files w !! PurePath.str (Path image_path) = Some content
    /\ r = Reply.Image (image_id_of metadata content)
             (PurePath.str (http_root self // PurePath.name (Path image_path)))
             (SHA256.hexdigest content)
    /\ files w' = served (Reply.file_path r) content (files w)
    /\ images_with_id (Reply.image_id r) w' = [row]
    /\ Image.image_id row = Reply.image_id r
    /\ Image.file_path row = Reply.file_path r
    /\ Image.sha256_hash row = Some (SHA256.hexdigest content).
Proof.
  intros Hrun.
  pose proof (register_image_cases self clk image_path metadata w) as C.
  cbv zeta in C.
  destruct (files w !! PurePath.str (Path image_path)) as [content|];
    [|rewrite C in Hrun; discriminate Hrun].
  destruct (sql_value (dict_get metadata "name" (PyStr "Unknown"))) as [name|];
    [|destruct C as (e & C); rewrite C in Hrun; discriminate Hrun].
  destruct (sql_value (dict_get metadata "version" (PyStr "1.0"))) as [version|];
    [|destruct C as (e & C); rewrite C in Hrun; discriminate Hrun].
  rewrite C in Hrun. injection Hrun as <- <-.
  exists content. eexists.
  split; [reflexivity|]. split; [reflexivity|]. split; [reflexivity|].
  split; [apply images_with_id_after_replace; reflexivity|].
  repeat split; reflexivity.
Qed.

Lemma served_lookup target content fs :
  served target content fs !! target
  = match fs !! target with Some existing => Some existing | None => Some content end.
Proof.
  unfold served. destruct (fs !! target) eqn:E; [exact E|apply lookup_insert_eq].
Qed.

(** C1, as stated, fails: with a file of the destination name already in
    the serving directory the copy is skipped, and the digest returned is
    that of the source, not of the bytes at [file_path]. *)
Lemma stale_file_breaks_hash : ~ registered_hash_matches_stored.
Proof.
  intros H.
  destruct (register_image default_manager noon "/srv/build/base.img"
              kiosk_metadata stale_world) as [w' out] eqn:E.
  pose proof E as E'. vm_compute in E'.
  injection E' as Hw Ho. subst w' out.
  apply H in E. destruct E as (stored & row & Hfile & Hhash & _).
  vm_compute in Hfile. injection Hfile as <-.
  vm_compute in Hhash. discriminate Hhash.
Qed.

(** C1, amended. After a successful registration the digest in the
    result and in the one row of that image id is the SHA-256 of the
    source file, and the row's path is the destination in the serving
    directory.  A file that was already at the destination is kept as it
    is; otherwise the destination holds the source bytes.  So the digest
    is that of the stored bytes whenever the destination was free or
    held the same bytes. *)
Theorem registered_hash_is_source_hash self clk image_path metadata w w' r :
  register_image self clk image_path metadata w = (w', Ok (Success r)) ->
  exists content row,
    files w !! PurePath.str (Path image_path) = Some content
    /\ Reply.sha256_hash r = SHA256.hexdigest content
    /\ Reply.file_path r
       = PurePath.str (http_root self // PurePath.name (Path image_path))
    /\ images_with_id (Reply.image_id r) w' = [row]
    /\ Image.file_path row = Reply.file_path r
    /\ Image.sha256_hash row = Some (SHA256.hexdigest content)
    /\ files w' !! Reply.file_path r
       = match files w !! Reply.file_path r with
         | Some existing => Some existing
         | None => Some content
         end
    /\ ((forall existing, files w !! Reply.file_path r = Some existing ->
                          existing = content) ->
        files w' !! Reply.file_path r = Some content).
Proof.
  intros Hrun.
  destruct (register_image_success _ _ _ _ _ _ _ Hrun)
    as (content & row & Hsrc & -> & Hfiles & Hone & _ & Hpath & Hhash).
  exists content, row. cbn [Reply.sha256_hash Reply.file_path] in *.
  repeat (split; [solve [assumption|reflexivity]|]).
  assert (Hstored := served_lookup
            (PurePath.str (http_root self // PurePath.name (Path image_path)))
            content (files w)).
  rewrite <- Hfiles in Hstored.
  split; [exact Hstored|].
  intros Hsame. rewrite Hstored.
  destruct (files w !! PurePath.str (http_root self // PurePath.name (Path image_path)))
    as [existing|]; [|reflexivity].
  f_equal. apply Hsame. reflexivity.
Qed.

Lemma registered_hash_is_source_hash_witness :
  exists content row,
    files build_world !! PurePath.str (Path "/srv/build/base.img") = Some content
    /\ Reply.sha256_hash build_reply = SHA256.hexdigest content
    /\ Reply.file_path build_reply
       = PurePath.str (http_root default_manager
                       // PurePath.name (Path "/srv/build/base.img"))
    /\ images_with_id (Reply.image_id build_reply) (fst build_registered) = [row]
    /\ Image.file_path row = Reply.file_path build_reply
    /\ Image.sha256_hash row = Some (SHA256.hexdigest content)
    /\ files (fst build_registered) !! Reply.file_path build_reply
       = match files build_world !! Reply.file_path build_reply with
         | Some existing => Some existing
         | None => Some content
         end
    /\ ((forall existing,
            files build_world !! Reply.file_path build_reply = Some existing ->
            existing = content) ->
        files (fst build_registered) !! Reply.file_path build_reply = Some content).
Proof.
  apply (registered_hash_is_source_hash default_manager noon "/srv/build/base.img"
           kiosk_metadata build_world (fst build_registered) build_reply).
  vm_compute. reflexivity.
Defined.

(** C3, as stated, fails: the same bytes registered from [a.img] and then
    from [b.img] get the same image id, and the second call stores a
    second copy, under the other file name. *)
Lemma same_bytes_other_name_copied_again : ~ same_bytes_registration_idempotent.
Proof.
  intros H.
  destruct (register_image default_manager noon "/srv/build/a.img"
              kiosk_metadata twin_world) as [w1 out1] eqn:E1.
  pose proof E1 as E1'. vm_compute in E1'. injection E1' as Hw1 Ho1.
  subst w1 out1.
  match type of E1 with
  | _ = (?W1, _) =>
      destruct (register_image default_manager later "/srv/build/b.img"
                  kiosk_metadata W1) as [w2 out2] eqn:E2;
      assert (Hsrc2 : files W1 !! PurePath.str (Path "/srv/build/b.img")
                      = Some "image bytes") by (vm_compute; reflexivity)
  end.
  pose proof E2 as E2'. vm_compute in E2'. injection E2' as Hw2 Ho2.
  subst w2 out2.
  destruct (H default_manager noon later "/srv/build/a.img" "/srv/build/b.img"
              kiosk_metadata kiosk_metadata twin_world _ _ _ _ "image bytes"
              eq_refl Hsrc2 eq_refl eq_refl E1 E2)
    as (_ & Hfiles & _).
  apply (f_equal (fun fs => fs !! "/var/www/html/images/b.img")) in Hfiles.
  vm_compute in Hfiles. discriminate Hfiles.
Qed.

Lemma served_again target content fs :
  served target content (served target content fs) = served target content fs.
Proof.
  unfold served at 1. rewrite served_lookup.
  destruct (fs !! target); reflexivity.
Qed.

Lemma dict_get_same (d1 d2 : pydict) k default :
  dict_lookup d1 k = dict_lookup d2 k -> dict_get d1 k default = dict_get d2 k default.
Proof. unfold dict_get. intros ->. reflexivity. Qed.

(** C3, amended. Registering the same bytes twice under the same name and
    version, from source files of the same file name, is idempotent: both
    calls return the same image id, the second call leaves the files as
    the first left them, and one row with that image id exists
    afterwards. *)
Theorem same_file_registration_idempotent
    self clk1 clk2 path1 path2 metadata1 metadata2 w w1 w2 r1 r2 content :
  PurePath.name (Path path1) = PurePath.name (Path path2) ->
  files w !! PurePath.str (Path path1) = Some content ->
  files w1 !! PurePath.str (Path path2) = Some content ->
  dict_lookup metadata1 "name" = dict_lookup metadata2 "name" ->
  dict_lookup metadata1 "version" = dict_lookup metadata2 "version" ->
  register_image self clk1 path1 metadata1 w = (w1, Ok (Success r1)) ->
  register_image self clk2 path2 metadata2 w1 = (w2, Ok (Success r2)) ->
  Reply.image_id r1 = Reply.image_id r2
  /\ files w2 = files w1
  /\ exists row, images_with_id (Reply.image_id r2) w2 = [row].
Proof.
  intros Hname Hsrc1 Hsrc2 Hn Hv Hrun1 Hrun2.
  destruct (register_image_success _ _ _ _ _ _ _ Hrun1)
    as (c1 & row1 & Hc1 & -> & Hfiles1 & _).
  destruct (register_image_success _ _ _ _ _ _ _ Hrun2)
    as (c2 & row2 & Hc2 & -> & Hfiles2 & Hone & _).
  rewrite Hsrc1 in Hc1. injection Hc1 as <-.
  rewrite Hsrc2 in Hc2. injection Hc2 as <-.
  cbn [Reply.image_id Reply.file_path] in *.
  split; [|split; [|exists row2; exact Hone]].
  - unfold image_id_of.
    rewrite (dict_get_same _ _ _ (PyStr "unknown") Hn),
      (dict_get_same _ _ _ (PyStr "1.0") Hv). reflexivity.
  - rewrite Hfiles2, Hfiles1, Hname. apply served_again.
Qed.

Lemma same_file_registration_idempotent_witness :
  Reply.image_id build_reply = Reply.image_id build_reply
  /\ files (fst build_registered_again) = files (fst build_registered)
  /\ exists row,
       images_with_id (Reply.image_id build_reply) (fst build_registered_again) = [row].
Proof.
  apply (same_file_registration_idempotent default_manager noon later
           "/srv/build/base.img" "/srv/build/base.img" kiosk_metadata kiosk_metadata
           build_world (fst build_registered) (fst build_registered_again)
           build_reply build_reply "new build");
    vm_compute; reflexivity.
Defined.

(* ================================================================== *)
(** ** Deployment rows                                                  *)
(* ================================================================== *)

Lemma filter_no_hit {A} (f : A -> bool) (l : list A) :
  List.existsb f l = false -> List.filter f l = [].
Proof.
  induction l as [|a l IH]; simpl; [reflexivity|].
  intros H. apply orb_false_elim in H as [Ha Hl]. rewrite Ha. exact (IH Hl).
Qed.

Lemma no_completed_same_table w w' :
  deployments w' = deployments w -> no_completed_written w w'.
Proof. intros E r Hr _. rewrite E in Hr. exact Hr. Qed.

Lemma deploy_sets_status self clk device_id image_id method w w' result deployment_id :
  deploy_image_to_device self clk device_id image_id method w
  = (w', Ok (Reply.Deploy result (Some deployment_id))) ->
  exists row,
    deployments_with_id deployment_id w' = [row]
    /\ match result with
       | Success _ =>
           Deployment.status row = Some "deploying"
           /\ (exists t, Deployment.started_at row = Some (isoformat (py_now clk t)))
           /\ Deployment.error_message row = None
       | Failure e =>
           Deployment.status row = Some "failed"
           /\ Deployment.error_message row = Some e
       end.
Proof.
  intros Hrun.
  destruct (deploy_image_to_device_cases self clk device_id image_id method w)
    as [(e & n & E)|(depid & res & f & n & started & E & Hfresh)];
    rewrite E in Hrun; [discriminate Hrun|].
  injection Hrun as <- <- <-.
  eexists. split.
  - unfold deployments_with_id. cbn [deployments rows].
    rewrite List.filter_app, (filter_no_hit _ _ Hfresh).
    cbn [List.filter Deployment.deployment_id app].
    rewrite String.eqb_refl. reflexivity.
  - destruct res; cbn; eauto.
Qed.

Lemma deploy_no_completed self clk device_id image_id method w :
  no_completed_written w
    (fst (deploy_image_to_device self clk device_id image_id method w)).
Proof.
  destruct (deploy_image_to_device_cases self clk device_id image_id method w)
    as [(e & n & E)|(depid & res & f & n & started & E & Hfresh)]; rewrite E.
  - apply no_completed_same_table. reflexivity.
  - intros r Hr Hst. cbn [fst deployments rows] in Hr.
    apply List.in_app_or in Hr as [Hr|[<-|[]]]; [exact Hr|].
    cbn in Hst. destruct (success res); discriminate Hst.
Qed.

Lemma register_device_keeps_deployments self clk info w :
  deployments (fst (register_device self clk info w)) = deployments w.
Proof.
  destruct (dict_lookup info "mac_address") as [[|m]|] eqn:Hm.
  - unfold register_device, getitem, generate_device_id, str_method.
    unfold_monad. rewrite Hm.
    destruct (truthy (dict_get info "device_id" PyNone)); reflexivity.
  - destruct (register_device_str_mac self clk info w m Hm) as (id & f & row & E & _).
    rewrite E. reflexivity.
  - unfold register_device, getitem, generate_device_id, str_method.
    unfold_monad. rewrite Hm.
    destruct (truthy (dict_get info "device_id" PyNone)); reflexivity.
Qed.

Lemma register_image_keeps_deployments self clk path metadata w :
  deployments (fst (register_image self clk path metadata w)) = deployments w.
Proof.
  pose proof (register_image_cases self clk path metadata w) as C. cbv zeta in C.
  destruct (files w !! PurePath.str (Path path)); [|rewrite C; reflexivity].
  destruct (sql_value (dict_get metadata "name" (PyStr "Unknown")));
    [|destruct C as (e & ->); reflexivity].
  destruct (sql_value (dict_get metadata "version" (PyStr "1.0")));
    [|destruct C as (e & ->); reflexivity].
  rewrite C. reflexivity.
Qed.

Lemma cleanup_keeps_deployments self device_id w :
  deployments (fst (cleanup_deployment self device_id w)) = deployments w.
Proof.
  unfold cleanup_deployment, get_device, exists_, unlink. unfold_monad.
  destruct (select_device device_id w) as [device|]; [|reflexivity].
  destruct (bool_decide _); [|reflexivity].
  destruct (files w !! _); reflexivity.
Qed.

Lemma no_completed_by_any_call self c w : no_completed_written w (perform self c w).
Proof.
  destruct c as [clk info|clk path metadata|clk device_id image_id method|device_id];
    cbn [perform].
  - apply no_completed_same_table, register_device_keeps_deployments.
  - apply no_completed_same_table, register_image_keeps_deployments.
  - apply deploy_no_completed.
  - apply no_completed_same_table, cleanup_keeps_deployments.
Qed.

(** C9. A deployment that got as far as the dispatch (its result carries
    the deployment id) leaves exactly one row with that id: with status
    [deploying], a start time read from the clock and no error message
    when the strategy succeeded, with status [failed] and the strategy's
    error message when it failed.  And no call ever writes [completed]:
    a deployment row with that status after a call was there, the same,
    before it. *)
Theorem deployment_status_after_dispatch :
  (forall self clk device_id image_id method w w' result deployment_id,
      deploy_image_to_device self clk device_id image_id method w
      = (w', Ok (Reply.Deploy result (Some deployment_id))) ->
      exists row,
        deployments_with_id deployment_id w' = [row]
        /\ match result with
           | Success _ =>
               Deployment.status row = Some "deploying"
               /\ (exists t, Deployment.started_at row = Some (isoformat (py_now clk t)))
               /\ Deployment.error_message row = None
           | Failure e =>
               Deployment.status row = Some "failed"
               /\ Deployment.error_message row = Some e
           end)
  /\ (forall self c w, no_completed_written w (perform self c w)).
Proof.
  split.
  - exact deploy_sets_status.
  - exact no_completed_by_any_call.
Qed.

(** *** PXE boot menus *)

Lemma deploy_pxe_success self clk device_id image_id w w' payload id :
  deploy_image_to_device self clk device_id image_id "pxe" w
  = (w', Ok (Reply.Deploy (Success payload) id)) ->
  exists device image deployment_id f,
    select_device device_id w = Some device
    /\ select_image image_id w = Some image
    /\ id = Some deployment_id
    /\ payload
       = Reply.pxe (PurePath.str (pxe_config_file self (Device.mac_address device)))
           (image_url self (PurePath.name (Path (Image.file_path image))))
    /\ files w'
       = <[PurePath.str (pxe_config_file self (Device.mac_address device))
           := pxe_config self (PurePath.name (Path (Image.file_path image)))
                deployment_id]> f
    /\ (f = files w
        \/ exists c,
             f = <[PurePath.str (http_root self
                                 // PurePath.name (Path (Image.file_path image)))
                   := c]> (files w))
    /\ devices w' = devices w
    /\ images w' = images w.
Proof.
  unfold deploy_image_to_device, get_device, get_image, insert_deployment,
    update_deployment, datetime_now, CURRENT_TIMESTAMP.
  unfold_monad.
  destruct (select_device device_id w) as [device|]; [|intros H; discriminate H].
  destruct (select_image image_id w) as [image|]; [|intros H; discriminate H].
  cbv beta iota.
  set (depid := "deploy-" +:+ strftime_Ymd_HMS (py_now clk (tick w)) +:+ "-"
                +:+ Str.take 8 device_id).
  cbn [deployments set_tick rows].
  destruct (List.existsb (fun r => String.eqb (Deployment.deployment_id r) depid)
              (rows (deployments w))); [intros H; discriminate H|].
  rewrite String.eqb_refl.
  match goal with
  | |- context [deploy_via_pxe self device image depid ?w1] =>
      destruct (deploy_via_pxe_cases self device image depid w1)
        as [(f & E & Hf)|(e & E)]; rewrite E
  end; [|intros H; discriminate H].
  cbn -[String.eqb Str.take pxe_config_file pxe_config image_url].
  intros H. injection H as <- <- <-.
  exists device, image, depid, f.
  repeat split; try reflexivity. exact Hf.
Qed.

Lemma split_without_separator c s :
  Str.contains (Str.chr c) s = false -> Str.split c s = [s].
Proof.
  induction s as [|a s IH]; simpl; [reflexivity|].
  destruct (ascii_dec c a) as [->|Hne].
  - destruct s; discriminate.
  - rewrite (proj2 (Ascii.eqb_neq a c)) by congruence.
    intros H. rewrite (IH H). reflexivity.
Qed.

Lemma lower_char_slash a : Str.lower_char a = "/"%char -> a = "/"%char.
Proof.
  destruct a as [[] [] [] [] [] [] [] []]; vm_compute; intros H;
    solve [reflexivity | discriminate H].
Qed.

Lemma contains_slash_cons a s :
  Str.contains "/" (String a s)
  = if ascii_dec "/" a then true else Str.contains "/" s.
Proof.
  cbn [Str.contains String.prefix].
  destruct (ascii_dec "/" a); [destruct s|]; reflexivity.
Qed.

Lemma mac_config_without_slash mac :
  Str.contains "/" mac = false -> Str.contains "/" (mac_config mac) = false.
Proof.
  unfold mac_config. induction mac as [|a r IH]; [reflexivity|].
  rewrite contains_slash_cons.
  destruct (ascii_dec "/" a) as [|Hne]; [discriminate|]. intros Hr.
  cbn [Str.replace].
  destruct (Ascii.eqb a ":").
  - change (Str.lower ("-" +:+ Str.replace ":" "-" r))
      with (String "-" (Str.lower (Str.replace ":" "-" r))).
    rewrite contains_slash_cons. destruct (ascii_dec "/" "-"); [discriminate|].
    exact (IH Hr).
  - cbn [Str.lower]. rewrite contains_slash_cons.
    destruct (ascii_dec "/" (Str.lower_char a)) as [E|_]; [|exact (IH Hr)].
    symmetry in E. apply lower_char_slash in E. congruence.
Qed.

(** The boot menu of a MAC without slash is named [01-] and the MAC in
    lower case with hyphens. *)
Lemma pxe_config_file_name self mac :
  Str.contains "/" mac = false ->
  PurePath.name (pxe_config_file self mac)
  = "01-" +:+ Str.lower (Str.replace ":" "-" mac).
Proof.
  intros Hmac. apply mac_config_without_slash in Hmac.
  unfold pxe_config_file. fold (mac_config mac).
  set (leaf := "01-" +:+ mac_config mac).
  assert (Hleaf : Path leaf = PurePath.mk EmptyString [leaf]).
  { unfold Path, PurePath.splitroot, PurePath.components.
    assert (Hs : Str.contains "/" leaf = false).
    { unfold leaf.
      change ("01-" +:+ mac_config mac)
        with (String "0" (String "1" (String "-" (mac_config mac)))).
      rewrite !contains_slash_cons. exact Hmac. }
    unfold leaf at 1 2.
    change ("01-" +:+ mac_config mac)
      with (String "0" (String "1" (String "-" (mac_config mac)))).
    cbn [Ascii.eqb Bool.eqb]. fold leaf.
    change (String "0" (String "1" (String "-" (mac_config mac)))) with leaf.
    rewrite (split_without_separator "/" leaf Hs). reflexivity. }
  unfold PurePath.div at 1. rewrite Hleaf. cbn [PurePath.root Str.nonempty PurePath.parts].
  unfold PurePath.name. cbn [PurePath.parts]. apply List.last_last.
Qed.

Lemma select_device_same_table device_id w w' :
  devices w' = devices w -> select_device device_id w' = select_device device_id w.
Proof. unfold select_device. intros ->. reflexivity. Qed.

(** C8. Two successful PXE deployments to the same device, one after the
    other: both write the boot menu at the path made from the device's
    MAC alone, [pxelinux.cfg/01-] and the MAC in lower case with hyphens
    for colons, under the TFTP root.  After the second the file holds the
    second menu, and apart from it and the HTTP copy of the image no file
    is added or changed. *)
Theorem pxe_boot_menu_keyed_by_mac
    self clk1 clk2 device_id image1 image2 w w1 w2 payload1 payload2 id1 id2 :
  deploy_image_to_device self clk1 device_id image1 "pxe" w
  = (w1, Ok (Reply.Deploy (Success payload1) id1)) ->
  deploy_image_to_device self clk2 device_id image2 "pxe" w1
  = (w2, Ok (Reply.Deploy (Success payload2) id2)) ->
  exists device image deployment_id,
    let mac := Device.mac_address device in
    let cfg := PurePath.str (tftp_root self // "pxelinux.cfg"
                             // ("01-" +:+ Str.lower (Str.replace ":" "-" mac))) in
    let image_name := PurePath.name (Path (Image.file_path image)) in
    select_device device_id w = Some device
    /\ select_image image2 w1 = Some image
    /\ id2 = Some deployment_id
    /\ (Str.contains "/" mac = false ->
        PurePath.name (pxe_config_file self mac)
        = "01-" +:+ Str.lower (Str.replace ":" "-" mac))
    /\ (exists url, payload1 = Reply.pxe cfg url)
    /\ (exists url, payload2 = Reply.pxe cfg url)
    /\ is_Some (files w1 !! cfg)
    /\ files w2 !! cfg = Some (pxe_config self image_name deployment_id)
    /\ (forall p, p <> cfg ->
                  p <> PurePath.str (http_root self // image_name) ->
                  files w2 !! p = files w1 !! p).
Proof.
  intros Hrun1 Hrun2.
  destruct (deploy_pxe_success _ _ _ _ _ _ _ _ Hrun1)
    as (dev1 & img1 & dep1 & f1 & Hdev1 & _ & _ & Hp1 & Hfiles1 & _ & Hsame & _).
  destruct (deploy_pxe_success _ _ _ _ _ _ _ _ Hrun2)
    as (dev2 & img2 & dep2 & f2 & Hdev2 & Himg2 & Hid2 & Hp2 & Hfiles2 & Hf2 & _).
  rewrite (select_device_same_table device_id w w1 Hsame), Hdev1 in Hdev2.
  injection Hdev2 as <-.
  exists dev1, img2, dep2. cbv zeta.
  change (tftp_root self // "pxelinux.cfg"
          // ("01-" +:+ Str.lower (Str.replace ":" "-" (Device.mac_address dev1))))
    with (pxe_config_file self (Device.mac_address dev1)).
  split; [exact Hdev1|]. split; [exact Himg2|]. split; [exact Hid2|].
  split; [apply pxe_config_file_name|].
  split; [eexists; exact Hp1|]. split; [eexists; exact Hp2|].
  split; [rewrite Hfiles1, lookup_insert_eq; eauto|].
  split; [rewrite Hfiles2; apply lookup_insert_eq|].
  intros p Hcfg Hhttp. rewrite Hfiles2, lookup_insert_ne by congruence.
  destruct Hf2 as [->|(c & ->)]; [reflexivity|].
  apply lookup_insert_ne. congruence.
Qed.

(** A PXE deployment goes through when the device and the image are
    registered, the deployment id is free and the image file is there. *)
Lemma deploy_pxe_goes_through self clk device_id image_id w device image content :
  select_device device_id w = Some device ->
  select_image image_id w = Some image ->
  List.existsb
    (fun r => String.eqb (Deployment.deployment_id r)
                ("deploy-" +:+ strftime_Ymd_HMS (py_now clk (tick w)) +:+ "-"
                 +:+ Str.take 8 device_id))
    (rows (deployments w)) = false ->
  files w !! PurePath.str (http_root self // PurePath.name (Path (Image.file_path image)))
  = Some content ->
  exists w',
    deploy_image_to_device self clk device_id image_id "pxe" w
    = (w', Ok (Reply.Deploy
                 (Success (Reply.pxe
                    (PurePath.str (pxe_config_file self (Device.mac_address device)))
                    (image_url self (PurePath.name (Path (Image.file_path image))))))
                 (Some ("deploy-" +:+ strftime_Ymd_HMS (py_now clk (tick w)) +:+ "-"
                        +:+ Str.take 8 device_id)))).
Proof.
  intros Hdev Himg Hfresh Hfile.
  unfold deploy_image_to_device, get_device, get_image, insert_deployment,
    update_deployment, datetime_now, CURRENT_TIMESTAMP, deploy_via_pxe,
    exists_, write_file.
  unfold_monad. rewrite Hdev, Himg. cbv beta iota.
  cbn [deployments set_tick rows]. rewrite Hfresh.
  rewrite String.eqb_refl. cbn [files set_deployments set_tick].
  rewrite bool_decide_eq_true_2 by eauto.
  eexists. reflexivity.
Qed.

Lemma pxe_boot_menu_keyed_by_mac_witness :
  exists device image deployment_id,
    let mac := Device.mac_address device in
    let cfg := PurePath.str (tftp_root default_manager // "pxelinux.cfg"
                             // ("01-" +:+ Str.lower (Str.replace ":" "-" mac))) in
    let image_name := PurePath.name (Path (Image.file_path image)) in
    select_device "aabbccddeeff" kiosk_world = Some device
    /\ select_image "kiosk-2.0-9893f46b" (fst first_deploy) = Some image
    /\ Some "deploy-20240502-093000-aabbccdd" = Some deployment_id
    /\ (Str.contains "/" mac = false ->
        PurePath.name (pxe_config_file default_manager mac)
        = "01-" +:+ Str.lower (Str.replace ":" "-" mac))
    /\ (exists url, kiosk_boot_menu = Reply.pxe cfg url)
    /\ (exists url, kiosk_boot_menu = Reply.pxe cfg url)
    /\ is_Some (files (fst first_deploy) !! cfg)
    /\ files (fst second_deploy) !! cfg
       = Some (pxe_config default_manager image_name deployment_id)
    /\ (forall p, p <> cfg ->
                  p <> PurePath.str (http_root default_manager // image_name) ->
                  files (fst second_deploy) !! p = files (fst first_deploy) !! p).
Proof.
  apply (pxe_boot_menu_keyed_by_mac default_manager noon later "aabbccddeeff"
           "kiosk-2.0-9893f46b" "kiosk-2.0-9893f46b"
           kiosk_world (fst first_deploy) (fst second_deploy)
           kiosk_boot_menu kiosk_boot_menu
           (Some "deploy-20240501-120000-aabbccdd")
           (Some "deploy-20240502-093000-aabbccdd"));
    vm_compute; reflexivity.
Defined.

Lemma deployment_status_after_dispatch_witness :
  exists row,
    deployments_with_id "deploy-20240501-120000-aabbccdd" (fst first_deploy) = [row]
    /\ Deployment.status row = Some "deploying"
    /\ (exists t, Deployment.started_at row = Some (isoformat (py_now noon t)))
    /\ Deployment.error_message row = None.
Proof.
  apply (proj1 deployment_status_after_dispatch default_manager noon "aabbccddeeff"
           "kiosk-2.0-9893f46b" "pxe" kiosk_world (fst first_deploy)
           (Success kiosk_boot_menu) "deploy-20240501-120000-aabbccdd").
  vm_compute. reflexivity.
Defined.

(** The scenario of the data model: the device, the image, the boot menu
    and the deployment row that goes from pending to deploying. *)
Example kiosk_scenario :
  snd first_deploy
  = Ok (Reply.Deploy (Success kiosk_boot_menu) (Some "deploy-20240501-120000-aabbccdd"))
  /\ List.map Deployment.status (rows (deployments (fst first_deploy)))
     = [Some "deploying"]
  /\ List.map Device.device_id (rows (devices kiosk_world)) = ["aabbccddeeff"]
  /\ List.map Image.image_id (rows (images kiosk_world)) = ["kiosk-2.0-9893f46b"].
Proof. vm_compute. repeat split; reflexivity. Qed.

(* ================================================================== *)
(** ** Further properties of the device registry                        *)
(* ================================================================== *)

Lemma find_after_replace {A} (hit conflict : A -> bool) (l : list A) (new : A) :
  (forall x, hit x = true -> conflict x = true) ->
  hit new = true ->
  List.find hit (List.filter (fun x => negb (conflict x)) l ++ [new]) = Some new.
Proof.
  intros Himp Hnew. induction l as [|a l IH]; simpl.
  - rewrite Hnew. reflexivity.
  - destruct (conflict a) eqn:Ec; simpl; [exact IH|].
    destruct (hit a) eqn:Eh; [|exact IH].
    apply Himp in Eh. congruence.
Qed.

(** X1. A device that was just registered is found under the id the
    registration returned: the row has that id, the canonical MAC and
    the IP address given. *)
Theorem registered_device_is_found self clk info w m :
  dict_lookup info "mac_address" = Some (PyStr m) ->
  exists w' r row,
    register_device self clk info w = (w', Ok (Success r))
    /\ get_device (Reply.device_id r) w' = (w', Ok (Some row))
    /\ Device.device_id row = Reply.device_id r
    /\ Device.mac_address row = Reply.mac_address r
    /\ Reply.mac_address r = canonical_mac m
    /\ Device.ip_address row = sql_value (dict_get info "ip_address" PyNone).
Proof.
  intros Hm.
  destruct (register_device_str_mac self clk info w m Hm)
    as (id & f & row & E & _ & Hid & Hmac & Hip & _).
  eexists; eexists; exists row. rewrite E.
  split; [reflexivity|]. cbn [Reply.device_id Reply.mac_address].
  split; [|auto].
  unfold get_device, select_device. unfold_monad. cbn [devices rows].
  rewrite (find_after_replace _ (device_conflict id (canonical_mac m))).
  - reflexivity.
  - intros x Hx. unfold device_conflict. rewrite Hx. reflexivity.
  - rewrite Hid. apply String.eqb_refl.
Qed.

Lemma registered_device_is_found_witness :
  exists w' r row,
    register_device default_manager noon
      [("mac_address", PyStr "AA-BB-CC-DD-EE-01"); ("ip_address", PyStr "10.0.0.7")]
      fleet_world = (w', Ok (Success r))
    /\ get_device (Reply.device_id r) w' = (w', Ok (Some row))
    /\ Device.device_id row = Reply.device_id r
    /\ Device.mac_address row = Reply.mac_address r
    /\ Reply.mac_address r = "aa:bb:cc:dd:ee:01"
    /\ Device.ip_address row = Some "10.0.0.7".
Proof.
  apply (registered_device_is_found default_manager noon
           [("mac_address", PyStr "AA-BB-CC-DD-EE-01"); ("ip_address", PyStr "10.0.0.7")]
           fleet_world "AA-BB-CC-DD-EE-01").
  reflexivity.
Defined.

(** X2. Registering a device leaves every other device alone: a row that
    shares neither the device id nor the MAC with the registration is in
    the table afterwards, unchanged. *)
Theorem registration_keeps_other_devices self clk info w m other :
  dict_lookup info "mac_address" = Some (PyStr m) ->
  In other (rows (devices w)) ->
  Device.mac_address other <> canonical_mac m ->
  exists w' r,
    register_device self clk info w = (w', Ok (Success r))
    /\ (Device.device_id other <> Reply.device_id r ->
        In other (rows (devices w')))
    /\ (Device.device_id other = Reply.device_id r ->
        ~ In other (rows (devices w'))).
Proof.
  intros Hm Hin Hmac.
  destruct (register_device_str_mac self clk info w m Hm)
    as (id & f & row & E & _ & Hid & Hrmac & _).
  eexists; eexists. rewrite E. split; [reflexivity|].
  cbn [Reply.device_id devices rows].
  split.
  - intros Hne. apply List.in_or_app. left. apply List.filter_In.
    split; [exact Hin|]. unfold device_conflict.
    rewrite (proj2 (String.eqb_neq _ _) Hne), (proj2 (String.eqb_neq _ _) Hmac).
    reflexivity.
  - intros Heq Hin'. apply List.in_app_or in Hin' as [Hin'|[<-|[]]].
    + apply List.filter_In in Hin' as [_ Hc]. unfold device_conflict in Hc.
      rewrite Heq, String.eqb_refl in Hc. discriminate Hc.
    + apply Hmac. exact Hrmac.
Qed.

Lemma registration_keeps_other_devices_witness :
  exists w' r,
    register_device default_manager noon
      [("device_id", PyStr "lobby"); ("mac_address", PyStr "AA:BB:CC:DD:EE:03")]
      two_device_world = (w', Ok (Success r))
    /\ (Device.device_id lobby_device <> Reply.device_id r ->
        In lobby_device (rows (devices w')))
    /\ (Device.device_id lobby_device = Reply.device_id r ->
        ~ In lobby_device (rows (devices w'))).
Proof.
  apply (registration_keeps_other_devices default_manager noon
           [("device_id", PyStr "lobby"); ("mac_address", PyStr "AA:BB:CC:DD:EE:03")]
           two_device_world "AA:BB:CC:DD:EE:03" lobby_device).
  - reflexivity.
  - simpl. right. left. reflexivity.
  - discriminate.
Defined.

Lemma lower_char_idempotent a : Str.lower_char (Str.lower_char a) = Str.lower_char a.
Proof. destruct a as [[] [] [] [] [] [] [] []]; reflexivity. Qed.

Lemma canonical_mac_idempotent m : canonical_mac (canonical_mac m) = canonical_mac m.
Proof.
  unfold canonical_mac. induction m as [|a r IH]; [reflexivity|].
  cbn [Str.lower Str.replace].
  destruct (Ascii.eqb_spec (Str.lower_char a) "-") as [E|E].
  - change (":" +:+ Str.replace "-" ":" (Str.lower r))
      with (String ":" (Str.replace "-" ":" (Str.lower r))).
    cbn [Str.lower Str.replace]. change (Str.lower_char ":") with ":"%char.
    change (Ascii.eqb ":" "-") with false. cbv iota. rewrite IH. reflexivity.
  - cbn [Str.lower Str.replace]. rewrite lower_char_idempotent.
    rewrite (proj2 (Ascii.eqb_neq _ _) E). rewrite IH. reflexivity.
Qed.

(** X3. The MAC normalisation is idempotent: registering with the
    [mac_address] an earlier registration returned gives back that same
    [mac_address], so the device is addressed by it again. *)
Theorem registration_with_returned_mac self clk1 clk2 info1 info2 w w1 r1 :
  register_device self clk1 info1 w = (w1, Ok (Success r1)) ->
  dict_lookup info2 "mac_address" = Some (PyStr (Reply.mac_address r1)) ->
  exists w2 r2 row,
    register_device self clk2 info2 w1 = (w2, Ok (Success r2))
    /\ Reply.mac_address r2 = Reply.mac_address r1
    /\ devices_with_mac (Reply.mac_address r1) w2 = [row].
Proof.
  intros Hrun1 Hm2.
  assert (Hcanon : canonical_mac (Reply.mac_address r1) = Reply.mac_address r1).
  { destruct (dict_lookup info1 "mac_address") as [[|m1]|] eqn:Hm1.
    - revert Hrun1.
      unfold register_device, getitem, generate_device_id, str_method.
      unfold_monad. rewrite Hm1.
      destruct (truthy (dict_get info1 "device_id" PyNone)); intros H; discriminate H.
    - destruct (register_device_str_mac self clk1 info1 w m1 Hm1)
        as (id & f & row & E & _).
      rewrite E in Hrun1. injection Hrun1 as _ <-.
      apply canonical_mac_idempotent.
    - revert Hrun1.
      unfold register_device, getitem, generate_device_id, str_method.
      unfold_monad. rewrite Hm1.
      destruct (truthy (dict_get info1 "device_id" PyNone)); intros H; discriminate H. }
  destruct (register_device_str_mac self clk2 info2 w1 _ Hm2)
    as (id & f & row & E & _ & _ & Hmac & _).
  rewrite Hcanon in E, Hmac.
  eexists; eexists; exists row. rewrite E.
  split; [reflexivity|]. split; [reflexivity|].
  apply devices_with_mac_after_replace. exact Hmac.
Qed.

Lemma registration_with_returned_mac_witness :
  exists w2 r2 row,
    register_device default_manager later
      [("mac_address", PyStr "aa:bb:cc:dd:ee:ff")] (fst hyphen_registered)
    = (w2, Ok (Success r2))
    /\ Reply.mac_address r2 = "aa:bb:cc:dd:ee:ff"
    /\ devices_with_mac "aa:bb:cc:dd:ee:ff" w2 = [row].
Proof.
  apply (registration_with_returned_mac default_manager noon later
           [("mac_address", PyStr "AA-BB-CC-DD-EE-FF")]
           [("mac_address", PyStr "aa:bb:cc:dd:ee:ff")]
           empty_world (fst hyphen_registered)
           (Reply.Device "aa-bb-cc-dd-ee-ff" "aa:bb:cc:dd:ee:ff"));
    vm_compute; reflexivity.
Defined.

(** *** Listings *)

Lemma newer_first_total a b : newer_first a b = true \/ newer_first b a = true.
Proof.
  destruct a as [x|], b as [y|]; simpl; auto.
  destruct (String.leb_total y x); auto.
Qed.

Lemma insert_by_permutation {R} (key : R -> option string) r l :
  Permutation (insert_by key r l) (r :: l).
Proof.
  induction l as [|h t IH]; simpl; [reflexivity|].
  destruct (newer_first (key r) (key h)); [reflexivity|].
  rewrite IH. apply perm_swap.
Qed.

Lemma order_by_desc_permutation {R} (key : R -> option string) l :
  Permutation (order_by_desc key l) l.
Proof.
  induction l as [|h t IH]; simpl; [reflexivity|].
  rewrite insert_by_permutation. apply perm_skip. exact IH.
Qed.

Lemma insert_by_sorted {R} (key : R -> option string) r l :
  newest_first key l -> newest_first key (insert_by key r l).
Proof.
  unfold newest_first. induction l as [|h t IH]; intros Hs; simpl.
  - repeat constructor.
  - destruct (newer_first (key r) (key h)) eqn:E.
    + constructor; [exact Hs|]. constructor. exact E.
    + inversion Hs as [|? ? Ht Hhd]; subst.
      constructor; [exact (IH Ht)|].
      destruct t as [|h' t']; simpl.
      * constructor. destruct (newer_first_total (key h) (key r)); congruence.
      * destruct (newer_first (key r) (key h')).
        -- constructor. destruct (newer_first_total (key h) (key r)); congruence.
        -- inversion Hhd; subst. constructor. assumption.
Qed.

Lemma order_by_desc_sorted {R} (key : R -> option string) l :
  newest_first key (order_by_desc key l).
Proof.
  induction l as [|h t IH]; simpl; [constructor|].
  apply insert_by_sorted. exact IH.
Qed.

Lemma sql_eq_true column param : sql_eq column param = true <-> column = Some param.
Proof.
  destruct column as [v|]; simpl.
  - rewrite String.eqb_eq. split; congruence.
  - split; discriminate.
Qed.

Lemma list_devices_members self status w :
  exists l,
    list_devices self status w = (w, Ok l)
    /\ (forall r, In r l <->
                  In r (rows (devices w))
                  /\ (truthy status = true -> Device.status r = Some (format status))).
Proof.
  unfold list_devices. unfold_monad.
  eexists. split; [reflexivity|].
  intros r. split.
  - intros H. apply (Permutation_in _ (order_by_desc_permutation _ _)) in H.
    destruct (truthy status); [|split; [exact H|discriminate]].
    apply List.filter_In in H. rewrite sql_eq_true in H. tauto.
  - intros [H Hs].
    apply (Permutation_in _ (Permutation_sym (order_by_desc_permutation _ _))).
    destruct (truthy status); [|exact H].
    apply List.filter_In. rewrite sql_eq_true. auto.
Qed.

Lemma list_deployments_members self device_id status w :
  exists l,
    list_deployments self device_id status w = (w, Ok l)
    /\ (forall r, In r l <->
                  In r (rows (deployments w))
                  /\ (truthy device_id = true ->
                      Deployment.device_id r = format device_id)
                  /\ (truthy status = true ->
                      Deployment.status r = Some (format status))).
Proof.
  unfold list_deployments. unfold_monad.
  eexists. split; [reflexivity|].
  intros r. split.
  - intros H. apply (Permutation_in _ (order_by_desc_permutation _ _)) in H.
    apply List.filter_In in H as [Hin Hc]. split; [exact Hin|].
    destruct (truthy device_id), (truthy status); cbn in Hc;
      rewrite ?andb_true_r in Hc; try apply andb_prop in Hc as [Hc1 Hc2];
      rewrite ?String.eqb_eq, ?sql_eq_true in *; split; intros; congruence.
  - intros (Hin & Hd & Hs).
    apply (Permutation_in _ (Permutation_sym (order_by_desc_permutation _ _))).
    apply List.filter_In. split; [exact Hin|].
    destruct (truthy device_id), (truthy status); cbn;
      rewrite ?andb_true_r; try apply andb_true_intro;
      rewrite ?String.eqb_eq, ?sql_eq_true; auto.
Qed.

(** X4. [list_devices] changes nothing and returns, newest created first,
    exactly the devices of the given status, each as often as the table
    has it; without a status, or with the empty string, it returns every
    device. *)
Theorem list_devices_lists_matching self status w :
  exists l,
    list_devices self status w = (w, Ok l)
    /\ (forall r, In r l <->
                  In r (rows (devices w))
                  /\ (truthy status = true -> Device.status r = Some (format status)))
    /\ Permutation l
         (List.filter (fun r => negb (truthy status)
                                || sql_eq (Device.status r) (format status))%bool
            (rows (devices w)))
    /\ newest_first Device.created_at l.
Proof.
  destruct (list_devices_members self status w) as (l & E & Hin).
  exists l. split; [exact E|]. split; [exact Hin|].
  revert E. unfold list_devices. unfold_monad. intros E. injection E as <-.
  split; [|apply order_by_desc_sorted].
  rewrite order_by_desc_permutation.
  destruct (truthy status); cbn [negb orb]; [reflexivity|].
  rewrite (List.forallb_filter_id (fun _ => true)) by (apply List.forallb_forall; auto).
  reflexivity.
Qed.


(** X6. A device that was just registered shows in the listing of the
    devices with status [registered], and in the listing without
    filter. *)
Theorem registered_device_is_listed self clk info w m :
  dict_lookup info "mac_address" = Some (PyStr m) ->
  exists w' r row by_status everything,
    register_device self clk info w = (w', Ok (Success r))
    /\ Device.device_id row = Reply.device_id r
    /\ Device.mac_address row = Reply.mac_address r
    /\ list_devices self (PyStr "registered") w' = (w', Ok by_status)
    /\ In row by_status
    /\ list_devices self PyNone w' = (w', Ok everything)
    /\ In row everything.
Proof.
  intros Hm.
  destruct (register_device_str_mac self clk info w m Hm)
    as (id & f & row & E & _ & Hid & Hmac & _ & Hst & _).
  match type of E with
  | _ = (?W, _) =>
      destruct (list_devices_members self (PyStr "registered") W)
        as (l1 & E1 & Hin1);
      destruct (list_devices_members self PyNone W)
        as (l2 & E2 & Hin2)
  end.
  eexists; eexists; exists row, l1, l2. rewrite E.
  split; [reflexivity|]. split; [exact Hid|]. split; [exact Hmac|].
  split; [exact E1|]. split; [|split; [exact E2|]].
  - apply Hin1. split; [|intros _; exact Hst].
    cbn [devices rows]. apply List.in_or_app. right. left. reflexivity.
  - apply Hin2. split; [|discriminate].
    cbn [devices rows]. apply List.in_or_app. right. left. reflexivity.
Qed.

Lemma registered_device_is_listed_witness :
  exists w' r row by_status everything,
    register_device default_manager later
      [("mac_address", PyStr "AA:BB:CC:DD:EE:03")] two_device_world
    = (w', Ok (Success r))
    /\ Device.device_id row = Reply.device_id r
    /\ Device.mac_address row = Reply.mac_address r
    /\ list_devices default_manager (PyStr "registered") w' = (w', Ok by_status)
    /\ In row by_status
    /\ list_devices default_manager PyNone w' = (w', Ok everything)
    /\ In row everything.
Proof.
  apply (registered_device_is_listed default_manager later
           [("mac_address", PyStr "AA:BB:CC:DD:EE:03")] two_device_world
           "AA:BB:CC:DD:EE:03").
  reflexivity.
Defined.

(* ================================================================== *)
(** ** Further properties of the image registry                         *)
(* ================================================================== *)

Lemma register_image_source_missing self clk image_path metadata w :
  files w !! PurePath.str (Path image_path) = None ->
  register_image self clk image_path metadata w
  = (w, Ok (Failure "Image file does not exist")).
Proof.
  intros Hsrc.
  pose proof (register_image_cases self clk image_path metadata w) as C.
  cbv zeta in C. rewrite Hsrc in C. exact C.
Qed.



Lemma find_head_filter {A} (f : A -> bool) (l : list A) :
  List.find f l = List.head (List.filter f l).
Proof.
  induction l as [|a l IH]; simpl; [reflexivity|].
  destruct (f a); [reflexivity|exact IH].
Qed.

(** X8. An image that was just registered is found under the id the
    registration returned: the row carries the returned path and digest,
    the size of the source file and the metadata as JSON text. *)
Theorem registered_image_is_found self clk image_path metadata w w' r :
  register_image self clk image_path metadata w = (w', Ok (Success r)) ->
  exists content row,
    files w !! PurePath.str (Path image_path) = Some content
    /\ get_image (Reply.image_id r) w' = (w', Ok (Some row))
    /\ Image.image_id row = Reply.image_id r
    /\ Image.file_path row = Reply.file_path r
    /\ Image.sha256_hash row = Some (Reply.sha256_hash r)
    /\ Image.file_size row = Some (Z.of_nat (String.length content))
    /\ Image.metadata row = Some (Json.dumps metadata).
Proof.
  intros Hrun.
  pose proof (register_image_cases self clk image_path metadata w) as C.
  cbv zeta in C.
  destruct (files w !! PurePath.str (Path image_path)) as [content|];
    [|rewrite C in Hrun; discriminate Hrun].
  destruct (sql_value (dict_get metadata "name" (PyStr "Unknown"))) as [name|];
    [|destruct C as (e & C); rewrite C in Hrun; discriminate Hrun].
  destruct (sql_value (dict_get metadata "version" (PyStr "1.0"))) as [version|];
    [|destruct C as (e & C); rewrite C in Hrun; discriminate Hrun].
  rewrite C in Hrun. injection Hrun as <- <-.
  exists content. eexists. split; [reflexivity|].
  split.
  - unfold get_image, select_image. unfold_monad.
    cbn [images rows Reply.image_id].
    rewrite (find_after_replace _ (fun r => String.eqb (Image.image_id r)
                                              (image_id_of metadata content)));
      [reflexivity|auto|apply String.eqb_refl].
  - repeat split; reflexivity.
Qed.

Lemma registered_image_is_found_witness :
  exists content row,
    files build_world !! PurePath.str (Path "/srv/build/base.img") = Some content
    /\ get_image (Reply.image_id build_reply) (fst build_registered)
       = (fst build_registered, Ok (Some row))
    /\ Image.image_id row = Reply.image_id build_reply
    /\ Image.file_path row = Reply.file_path build_reply
    /\ Image.sha256_hash row = Some (Reply.sha256_hash build_reply)
    /\ Image.file_size row = Some (Z.of_nat (String.length content))
    /\ Image.metadata row = Some (Json.dumps kiosk_metadata).
Proof.
  apply (registered_image_is_found default_manager noon "/srv/build/base.img"
           kiosk_metadata build_world (fst build_registered) build_reply).
  vm_compute. reflexivity.
Defined.

(** X9. Whether it succeeds or fails, [register_image] never changes or
    removes a file that exists: the only path whose content can differ
    afterwards is the destination in the serving directory, and only
    when nothing was there. *)
Theorem register_image_keeps_files self clk image_path metadata w :
  let w' := fst (register_image self clk image_path metadata w) in
  let target := PurePath.str (http_root self // PurePath.name (Path image_path)) in
  (forall p c, files w !! p = Some c -> files w' !! p = Some c)
  /\ (forall p, p <> target -> files w' !! p = files w !! p).
Proof.
  cbv zeta.
  set (target := PurePath.str (http_root self // PurePath.name (Path image_path))).
  assert (Hserved : forall content,
    (forall p c, files w !! p = Some c -> served target content (files w) !! p = Some c)
    /\ (forall p, p <> target -> served target content (files w) !! p = files w !! p)).
  { intros content. unfold served.
    destruct (files w !! target) eqn:Ht; [auto|]. split.
    - intros p c Hp. rewrite lookup_insert_ne; [exact Hp|congruence].
    - intros p Hp. apply lookup_insert_ne. congruence. }
  pose proof (register_image_cases self clk image_path metadata w) as C.
  cbv zeta in C. fold target in C.
  destruct (files w !! PurePath.str (Path image_path)) as [content|];
    [|rewrite C; auto].
  destruct (sql_value (dict_get metadata "name" (PyStr "Unknown"))) as [name|];
    [|destruct C as (e & ->); exact (Hserved content)].
  destruct (sql_value (dict_get metadata "version" (PyStr "1.0"))) as [version|];
    [|destruct C as (e & ->); exact (Hserved content)].
  rewrite C. exact (Hserved content).
Qed.



(* ================================================================== *)
(** ** Further properties of the orchestrator                           *)
(* ================================================================== *)

Lemma fresh_id_iff deployment_id w :
  List.existsb (fun r => String.eqb (Deployment.deployment_id r) deployment_id)
    (rows (deployments w)) = false
  <-> ~ In deployment_id (List.map Deployment.deployment_id (rows (deployments w))).
Proof.
  induction (rows (deployments w)) as [|a l IH]; simpl; [tauto|].
  rewrite orb_false_iff, IH, String.eqb_neq. tauto.
Qed.

(** With the device and the image found and the id free, the deployment
    inserts the pending row, runs the strategy and records its result. *)
Lemma deploy_runs_strategy self clk device_id image_id method w device image w2 result :
  select_device device_id w = Some device ->
  select_image image_id w = Some image ->
  ~ In (deployment_id_at clk device_id w)
       (List.map Deployment.deployment_id (rows (deployments w))) ->
  dispatch self clk method device image (deployment_id_at clk device_id w)
    (pending_world clk device_id image_id method w) = (w2, Ok result) ->
  exists w',
    deploy_image_to_device self clk device_id image_id method w
    = (w', Ok (Reply.Deploy result (Some (deployment_id_at clk device_id w))))
    /\ files w' = files w2
    /\ devices w' = devices w2
    /\ images w' = images w2.
Proof.
  intros Hdev Himg Hfresh Hrun. apply fresh_id_iff in Hfresh.
  unfold deploy_image_to_device, get_device, get_image, insert_deployment,
    update_deployment, datetime_now, CURRENT_TIMESTAMP.
  unfold_monad. rewrite Hdev, Himg. cbv beta iota.
  fold (deployment_id_at clk device_id w).
  cbn [deployments set_tick rows]. rewrite Hfresh.
  match goal with
  | |- context C [(if String.eqb method "pxe" then ?a else ?b) ?W] =>
      let G := context C [dispatch self clk method device image
                            (deployment_id_at clk device_id w)
                            (pending_world clk device_id image_id method w)] in
      change G
  end.
  rewrite Hrun. eexists. split; [reflexivity|]. auto.
Qed.

(** A deployment whose result carries an id found the device and the
    image, and appended one row under the id made from the clock and the
    device id. *)
Lemma deploy_dispatched self clk device_id image_id method w w' result deployment_id :
  deploy_image_to_device self clk device_id image_id method w
  = (w', Ok (Reply.Deploy result (Some deployment_id))) ->
  deployment_id = deployment_id_at clk device_id w
  /\ (exists device, select_device device_id w = Some device)
  /\ (exists image, select_image image_id w = Some image)
  /\ devices w' = devices w
  /\ images w' = images w
  /\ exists row,
       rows (deployments w') = rows (deployments w) ++ [row]
       /\ Deployment.deployment_id row = deployment_id
       /\ Deployment.device_id row = device_id
       /\ Deployment.image_id row = image_id
       /\ Deployment.deployment_method row = method.
Proof.
  unfold deploy_image_to_device, get_device, get_image, insert_deployment,
    update_deployment, datetime_now, CURRENT_TIMESTAMP.
  unfold_monad.
  destruct (select_device device_id w) as [device|]; [|intros H; discriminate H].
  destruct (select_image image_id w) as [image|]; [|intros H; discriminate H].
  cbv beta iota. fold (deployment_id_at clk device_id w).
  cbn [deployments set_tick rows].
  destruct (List.existsb
              (fun r => String.eqb (Deployment.deployment_id r)
                          (deployment_id_at clk device_id w))
              (rows (deployments w))) eqn:Hfresh; [intros H; discriminate H|].
  match goal with
  | |- context [(if String.eqb method "pxe" then _ else _) ?w1] =>
      destruct (strategy_frame self clk method device image
                  (deployment_id_at clk device_id w) w1) as (f & n & r & E)
  end.
  unfold mret, M_ret in E. rewrite E. cbn -[String.eqb deployment_id_at].
  intros H. injection H as <- <- <-.
  split; [reflexivity|]. split; [eauto|]. split; [eauto|].
  split; [reflexivity|]. split; [reflexivity|].
  rewrite List.map_app. cbn [List.map Deployment.deployment_id].
  rewrite String.eqb_refl.
  rewrite (update_misses _ (deployment_id_at clk device_id w)) by
    (try exact Hfresh; intros x Hx; rewrite Hx; reflexivity).
  eexists. split; [reflexivity|]. repeat split; reflexivity.
Qed.

(** X11. Deploying an image id that no image row carries, to a device
    that exists, returns the failure [Image not found] and leaves the
    world as it was: no deployment row, no file. *)
Theorem deploy_unknown_image self clk device_id image_id method w device :
  select_device device_id w = Some device ->
  (forall r, In r (rows (images w)) -> Image.image_id r <> image_id) ->
  deploy_image_to_device self clk device_id image_id method w
  = (w, Ok (Reply.Deploy (Failure "Image not found") None)).
Proof.
  intros Hdev Habsent.
  assert (Hsel : select_image image_id w = None).
  { apply find_none_iff. intros r Hr. apply String.eqb_neq. exact (Habsent r Hr). }
  unfold deploy_image_to_device, get_device, get_image. unfold_monad.
  rewrite Hdev, Hsel. reflexivity.
Qed.

Lemma deploy_unknown_image_witness :
  deploy_image_to_device default_manager noon "aabbccddeeff" "kiosk-9.9-00000000"
    "pxe" fleet_world
  = (fleet_world, Ok (Reply.Deploy (Failure "Image not found") None)).
Proof.
  apply (deploy_unknown_image default_manager noon "aabbccddeeff" "kiosk-9.9-00000000"
           "pxe" fleet_world active_device).
  - reflexivity.
  - intros r [].
Defined.

(** X12. The deployment id holds the time to the second and the first
    eight characters of the device id.  So a deployment that follows
    another within the same second, to a device whose id starts with the
    same eight characters (the same device, say), is refused on the
    UNIQUE column: no row is added and no file written. *)
Theorem deploy_same_second_refused
    self clk1 clk2 device1 device2 image1 image2 method1 method2
    w w1 result1 id1 row2 image_row :
  deploy_image_to_device self clk1 device1 image1 method1 w
  = (w1, Ok (Reply.Deploy result1 (Some id1))) ->
  strftime_Ymd_HMS (py_now clk2 (tick w1)) = strftime_Ymd_HMS (py_now clk1 (tick w)) ->
  Str.take 8 device2 = Str.take 8 device1 ->
  select_device device2 w1 = Some row2 ->
  select_image image2 w1 = Some image_row ->
  exists w2,
    deploy_image_to_device self clk2 device2 image2 method2 w1
    = (w2, Ok (Reply.Deploy
                 (Failure "UNIQUE constraint failed: deployments.deployment_id") None))
    /\ deployments w2 = deployments w1
    /\ files w2 = files w1.
Proof.
  intros Hrun1 Hstamp Hprefix Hdev Himg.
  destruct (deploy_dispatched _ _ _ _ _ _ _ _ _ Hrun1)
    as (Hid & _ & _ & _ & _ & row & Hrows & Hrow & _).
  assert (Htaken :
    List.existsb (fun r => String.eqb (Deployment.deployment_id r)
                             (deployment_id_at clk2 device2 w1))
      (rows (deployments w1)) = true).
  { apply List.existsb_exists. exists row. split.
    - rewrite Hrows. apply List.in_or_app. right. left. reflexivity.
    - apply String.eqb_eq. rewrite Hrow, Hid.
      unfold deployment_id_at. rewrite Hstamp, Hprefix. reflexivity. }
  unfold deploy_image_to_device, get_device, get_image, insert_deployment,
    datetime_now.
  unfold_monad. rewrite Hdev, Himg. cbv beta iota.
  fold (deployment_id_at clk2 device2 w1).
  cbn [deployments set_tick rows]. rewrite Htaken.
  eexists. split; [reflexivity|]. split; reflexivity.
Qed.

Lemma deploy_same_second_refused_witness :
  exists w2,
    deploy_image_to_device default_manager noon "aabbccddeeff" "kiosk-2.0-9893f46b"
      "network" (fst first_deploy)
    = (w2, Ok (Reply.Deploy
                 (Failure "UNIQUE constraint failed: deployments.deployment_id") None))
    /\ deployments w2 = deployments (fst first_deploy)
    /\ files w2 = files (fst first_deploy).
Proof.
  refine (deploy_same_second_refused default_manager noon noon
            "aabbccddeeff" "aabbccddeeff" "kiosk-2.0-9893f46b" "kiosk-2.0-9893f46b"
            "pxe" "network" kiosk_world (fst first_deploy)
            (Success kiosk_boot_menu) "deploy-20240501-120000-aabbccdd"
            _ _ _ _ _ _ _);
    vm_compute; reflexivity.
Defined.

(** X13. A deployment never touches the device or the image table (the
    device's status and images stay as they were), and it only ever
    appends to the deployment table: the rows that were there are kept,
    in place and unchanged, and at most one row is added. *)
Theorem deploy_appends_history self clk device_id image_id method w :
  let w' := fst (deploy_image_to_device self clk device_id image_id method w) in
  devices w' = devices w
  /\ images w' = images w
  /\ exists added,
       rows (deployments w') = rows (deployments w) ++ added
       /\ (List.length added <= 1)%nat.
Proof.
  cbv zeta.
  destruct (deploy_image_to_device_cases self clk device_id image_id method w)
    as [(e & n & E)|(depid & res & f & n & started & E & _)]; rewrite E;
    cbn [fst devices images deployments rows set_tick].
  - split; [reflexivity|]. split; [reflexivity|].
    exists []. rewrite List.app_nil_r. split; [reflexivity|]. simpl. lia.
  - split; [reflexivity|]. split; [reflexivity|].
    eexists. split; [reflexivity|]. simpl. lia.
Qed.

Lemma dispatch_unsupported self clk method device image deployment_id w :
  method <> "pxe" -> method <> "usb" -> method <> "network" ->
  dispatch self clk method device image deployment_id w
  = (w, Ok (Failure ("Unsupported deployment method: " +:+ method))).
Proof.
  intros H1 H2 H3. unfold dispatch.
  rewrite (proj2 (String.eqb_neq _ _) H1), (proj2 (String.eqb_neq _ _) H2),
    (proj2 (String.eqb_neq _ _) H3).
  reflexivity.
Qed.

(** X14. A method other than [pxe], [usb] and [network] is found out
    only after the deployment row is inserted: the call returns the
    failure [Unsupported deployment method] with a deployment id, the
    row stays in the table with status [failed] and that message, and no
    file is written. *)
Theorem deploy_unsupported_method self clk device_id image_id method w device image :
  select_device device_id w = Some device ->
  select_image image_id w = Some image ->
  ~ In (deployment_id_at clk device_id w)
       (List.map Deployment.deployment_id (rows (deployments w))) ->
  method <> "pxe" -> method <> "usb" -> method <> "network" ->
  exists w' row,
    deploy_image_to_device self clk device_id image_id method w
    = (w', Ok (Reply.Deploy
                 (Failure ("Unsupported deployment method: " +:+ method))
                 (Some (deployment_id_at clk device_id w))))
    /\ files w' = files w
    /\ deployments_with_id (deployment_id_at clk device_id w) w' = [row]
    /\ Deployment.status row = Some "failed"
    /\ Deployment.error_message row
       = Some ("Unsupported deployment method: " +:+ method).
Proof.
  intros Hdev Himg Hfresh H1 H2 H3.
  destruct (deploy_runs_strategy self clk device_id image_id method w device image
              _ _ Hdev Himg Hfresh
              (dispatch_unsupported self clk method device image _ _ H1 H2 H3))
    as (w' & E & Hfiles & _).
  destruct (deploy_sets_status _ _ _ _ _ _ _ _ _ E) as (row & Hone & Hst & Herr).
  exists w', row. auto.
Qed.

Lemma deploy_unsupported_method_witness :
  exists w' row,
    deploy_image_to_device default_manager noon "aabbccddeeff" "kiosk-2.0-9893f46b"
      "floppy" kiosk_world
    = (w', Ok (Reply.Deploy
                 (Failure ("Unsupported deployment method: " +:+ "floppy"))
                 (Some (deployment_id_at noon "aabbccddeeff" kiosk_world))))
    /\ files w' = files kiosk_world
    /\ deployments_with_id (deployment_id_at noon "aabbccddeeff" kiosk_world) w' = [row]
    /\ Deployment.status row = Some "failed"
    /\ Deployment.error_message row
       = Some ("Unsupported deployment method: " +:+ "floppy").
Proof.
  refine (deploy_unsupported_method default_manager noon "aabbccddeeff"
            "kiosk-2.0-9893f46b" "floppy" kiosk_world _ _ _ _ _ _ _ _).
  - vm_compute. reflexivity.
  - vm_compute. reflexivity.
  - simpl. tauto.
  - discriminate.
  - discriminate.
  - discriminate.
Defined.

Lemma dispatch_pxe self clk device image deployment_id :
  dispatch self clk "pxe" device image deployment_id
  = deploy_via_pxe self device image deployment_id.
Proof. reflexivity. Qed.


Lemma dispatch_network self clk device image deployment_id :
  dispatch self clk "network" device image deployment_id
  = deploy_via_network self device image deployment_id.
Proof. reflexivity. Qed.




(** X16. When the image file is neither in the serving directory nor at
    the path of its row, a PXE deployment fails inside the strategy: the
    result is a failure that carries the deployment id, no boot menu and
    no other file is written, and the deployment row stays in the table
    with status [failed] and the error text. *)
Theorem pxe_deploy_without_image_file self clk device_id image_id w device image :
  select_device device_id w = Some device ->
  select_image image_id w = Some image ->
  ~ In (deployment_id_at clk device_id w)
       (List.map Deployment.deployment_id (rows (deployments w))) ->
  files w !! PurePath.str (http_root self // PurePath.name (Path (Image.file_path image)))
  = None ->
  files w !! os_path (Image.file_path image) = None ->
  exists w' row,
    let error := exn_str (FileNotFoundError (os_path (Image.file_path image))) in
    deploy_image_to_device self clk device_id image_id "pxe" w
    = (w', Ok (Reply.Deploy (Failure error) (Some (deployment_id_at clk device_id w))))
    /\ files w' = files w
    /\ deployments_with_id (deployment_id_at clk device_id w) w' = [row]
    /\ Deployment.status row = Some "failed"
    /\ Deployment.error_message row = Some error.
Proof.
  intros Hdev Himg Hfresh Hhttp Hsrc. cbv zeta.
  assert (Erun :
    dispatch self clk "pxe" device image (deployment_id_at clk device_id w)
      (pending_world clk device_id image_id "pxe" w)
    = (pending_world clk device_id image_id "pxe" w,
       Ok (Failure (exn_str (FileNotFoundError (os_path (Image.file_path image))))))).
  { rewrite dispatch_pxe.
    unfold deploy_via_pxe, exists_, copy2, write_file. unfold_monad.
    change (files (pending_world clk device_id image_id "pxe" w)) with (files w).
    rewrite bool_decide_eq_false_2 by (rewrite Hhttp; intros [? ?]; discriminate).
    cbv beta iota.
    change (files (pending_world clk device_id image_id "pxe" w)) with (files w).
    rewrite Hsrc. reflexivity. }
  destruct (deploy_runs_strategy self clk device_id image_id "pxe" w device image
              _ _ Hdev Himg Hfresh Erun) as (w' & E & Hfiles & _).
  destruct (deploy_sets_status _ _ _ _ _ _ _ _ _ E) as (row & Hone & Hst & Herr).
  exists w', row. auto.
Qed.

Lemma pxe_deploy_without_image_file_witness :
  exists w' row,
    let error := exn_str (FileNotFoundError (os_path "/var/www/html/images/old.img")) in
    deploy_image_to_device default_manager noon "aabbccddeeff" "kiosk-1.0-0a1b2c3d"
      "pxe" orphan_world
    = (w', Ok (Reply.Deploy (Failure error)
                 (Some (deployment_id_at noon "aabbccddeeff" orphan_world))))
    /\ files w' = files orphan_world
    /\ deployments_with_id (deployment_id_at noon "aabbccddeeff" orphan_world) w' = [row]
    /\ Deployment.status row = Some "failed"
    /\ Deployment.error_message row = Some error.
Proof.
  apply (pxe_deploy_without_image_file default_manager noon "aabbccddeeff"
           "kiosk-1.0-0a1b2c3d" orphan_world active_device orphan_image).
  - reflexivity.
  - reflexivity.
  - simpl. tauto.
  - reflexivity.
  - reflexivity.
Defined.

(** X17. A network deployment of a registered image to a registered
    device, under a free id, writes no file and contacts nobody: it
    returns the URL the agent is to fetch and the digest of the image
    row, and the deployment row reads [deploying]. *)
Theorem network_deploy_only_reports self clk device_id image_id w device image :
  select_device device_id w = Some device ->
  select_image image_id w = Some image ->
  ~ In (deployment_id_at clk device_id w)
       (List.map Deployment.deployment_id (rows (deployments w))) ->
  exists w' row,
    deploy_image_to_device self clk device_id image_id "network" w
    = (w', Ok (Reply.Deploy
                 (Success (Reply.network
                    (image_url self (PurePath.name (Path (Image.file_path image))))
                    (Image.sha256_hash image)
                    "Network deployment requires VDI agent on target device"))
                 (Some (deployment_id_at clk device_id w))))
    /\ files w' = files w
    /\ deployments_with_id (deployment_id_at clk device_id w) w' = [row]
    /\ Deployment.status row = Some "deploying".
Proof.
  intros Hdev Himg Hfresh.
  assert (Erun :
    dispatch self clk "network" device image (deployment_id_at clk device_id w)
      (pending_world clk device_id image_id "network" w)
    = (pending_world clk device_id image_id "network" w,
       Ok (Success (Reply.network
                      (image_url self (PurePath.name (Path (Image.file_path image))))
                      (Image.sha256_hash image)
                      "Network deployment requires VDI agent on target device"))))
    by reflexivity.
  destruct (deploy_runs_strategy self clk device_id image_id "network" w device image
              _ _ Hdev Himg Hfresh Erun) as (w' & E & Hfiles & _).
  destruct (deploy_sets_status _ _ _ _ _ _ _ _ _ E) as (row & Hone & Hst & _).
  exists w', row. auto.
Qed.

Lemma network_deploy_only_reports_witness :
  exists w' row,
    deploy_image_to_device default_manager noon "aabbccddeeff" "kiosk-1.0-0a1b2c3d"
      "network" orphan_world
    = (w', Ok (Reply.Deploy
                 (Success (Reply.network
                    (image_url default_manager
                       (PurePath.name (Path "/var/www/html/images/old.img")))
                    None
                    "Network deployment requires VDI agent on target device"))
                 (Some (deployment_id_at noon "aabbccddeeff" orphan_world))))
    /\ files w' = files orphan_world
    /\ deployments_with_id (deployment_id_at noon "aabbccddeeff" orphan_world) w' = [row]
    /\ Deployment.status row = Some "deploying".
Proof.
  apply (network_deploy_only_reports default_manager noon "aabbccddeeff"
           "kiosk-1.0-0a1b2c3d" orphan_world active_device orphan_image).
  - reflexivity.
  - reflexivity.
  - simpl. tauto.
Defined.






(* ================================================================== *)
(** ** Cleanup, and what every call keeps                               *)
(* ================================================================== *)

(** Cleanup for a registered device: the boot menu is gone afterwards,
    whether it was there or not, and nothing else changes. *)
Lemma cleanup_of_registered self device_id w device :
  select_device device_id w = Some device ->
  cleanup_deployment self device_id w
  = (set_files (delete (PurePath.str (pxe_config_file self (Device.mac_address device)))
                  (files w)) w,
     Ok true).
Proof.
  intros Hdev.
  unfold cleanup_deployment, get_device, exists_, unlink. unfold_monad.
  rewrite Hdev.
  set (p := PurePath.str (pxe_config_file self (Device.mac_address device))).
  destruct (files w !! p) as [c|] eqn:Hf.
  - rewrite bool_decide_eq_true_2 by eauto. cbv beta. rewrite Hf. reflexivity.
  - rewrite bool_decide_eq_false_2 by (intros [? ?]; discriminate).
    rewrite (delete_id (files w) p Hf). destruct w; reflexivity.
Qed.

(** X20. After a successful PXE deployment, cleanup of that device
    removes the boot menu the deployment wrote and nothing else, returns
    success, and leaves the deployment rows as they are; a second
    cleanup returns success again and changes nothing. *)
Theorem cleanup_removes_deployed_menu self clk device_id image_id w w1 payload id :
  deploy_image_to_device self clk device_id image_id "pxe" w
  = (w1, Ok (Reply.Deploy (Success payload) id)) ->
  exists w2 cfg url,
    payload = Reply.pxe cfg url
    /\ is_Some (files w1 !! cfg)
    /\ cleanup_deployment self device_id w1 = (w2, Ok true)
    /\ files w2 !! cfg = None
    /\ (forall p, p <> cfg -> files w2 !! p = files w1 !! p)
    /\ deployments w2 = deployments w1
    /\ cleanup_deployment self device_id w2 = (w2, Ok true).
Proof.
  intros Hrun.
  destruct (deploy_pxe_success _ _ _ _ _ _ _ _ Hrun)
    as (device & image & depid & f & Hdev & _ & _ & Hp & Hfiles & _ & Hsame & _).
  assert (Hdev1 : select_device device_id w1 = Some device)
    by (rewrite (select_device_same_table device_id w w1 Hsame); exact Hdev).
  set (cfg := PurePath.str (pxe_config_file self (Device.mac_address device))) in *.
  exists (set_files (delete cfg (files w1)) w1), cfg. eexists.
  split; [exact Hp|].
  split; [rewrite Hfiles, lookup_insert_eq; eauto|].
  split; [apply cleanup_of_registered; exact Hdev1|].
  split; [apply lookup_delete_eq|].
  split; [intros p Hne; apply lookup_delete_ne; congruence|].
  split; [reflexivity|].
  rewrite (cleanup_of_registered self device_id _ device) by exact Hdev1.
  cbn [files set_files]. rewrite delete_delete_eq. reflexivity.
Qed.

Lemma cleanup_removes_deployed_menu_witness :
  exists w2 cfg url,
    kiosk_boot_menu = Reply.pxe cfg url
    /\ is_Some (files (fst first_deploy) !! cfg)
    /\ cleanup_deployment default_manager "aabbccddeeff" (fst first_deploy)
       = (w2, Ok true)
    /\ files w2 !! cfg = None
    /\ (forall p, p <> cfg -> files w2 !! p = files (fst first_deploy) !! p)
    /\ deployments w2 = deployments (fst first_deploy)
    /\ cleanup_deployment default_manager "aabbccddeeff" w2 = (w2, Ok true).
Proof.
  apply (cleanup_removes_deployed_menu default_manager noon "aabbccddeeff"
           "kiosk-2.0-9893f46b" kiosk_world (fst first_deploy) kiosk_boot_menu
           (Some "deploy-20240501-120000-aabbccdd")).
  vm_compute. reflexivity.
Defined.

Lemma NoDup_map_filter {A B} (f : A -> B) (p : A -> bool) (l : list A) :
  List.NoDup (List.map f l) -> List.NoDup (List.map f (List.filter p l)).
Proof.
  induction l as [|a l IH]; simpl; [auto|].
  intros H. inversion H as [|? ? Hnotin Hnodup]; subst.
  destruct (p a); [|auto]. simpl. constructor; [|auto].
  intros Hin. apply Hnotin. apply List.in_map_iff in Hin as (x & Hx & Hin).
  apply List.filter_In in Hin as [Hin _].
  apply List.in_map_iff. eauto.
Qed.

Lemma NoDup_map_snoc {A B} (f : A -> B) (l : list A) (x : A) :
  List.NoDup (List.map f l) -> ~ In (f x) (List.map f l) ->
  List.NoDup (List.map f (l ++ [x])).
Proof.
  intros Hl Hx. rewrite List.map_app. simpl.
  apply List.NoDup_app.
  - exact Hl.
  - repeat constructor. simpl. tauto.
  - intros y Hy [<-|[]]. exact (Hx Hy).
Qed.

Lemma NoDup_map_replace {A B} (f : A -> B) (conflict : A -> bool) (l : list A) (x : A) :
  (forall r, f r = f x -> conflict r = true) ->
  List.NoDup (List.map f l) ->
  List.NoDup (List.map f (List.filter (fun r => negb (conflict r)) l ++ [x])).
Proof.
  intros Hc Hl. apply NoDup_map_snoc; [apply NoDup_map_filter; exact Hl|].
  intros Hin. apply List.in_map_iff in Hin as (r & Hr & Hin).
  apply List.filter_In in Hin as [_ Hk]. rewrite (Hc r Hr) in Hk. discriminate Hk.
Qed.

Lemma cleanup_frame self device_id w :
  exists f b, cleanup_deployment self device_id w = (set_files f w, Ok b).
Proof.
  destruct (select_device device_id w) as [device|] eqn:Hdev.
  - rewrite (cleanup_of_registered self device_id w device Hdev). eauto.
  - unfold cleanup_deployment, get_device. unfold_monad. rewrite Hdev.
    exists (files w), false. destruct w; reflexivity.
Qed.

(** X21. The UNIQUE columns stay unique: if no device id, MAC address,
    image id or deployment id occurs twice in its table, then none does
    after any registration, deployment or cleanup, whatever its
    arguments and whether it succeeds or fails. *)
Theorem unique_keys_kept self c w : unique_keys w -> unique_keys (perform self c w).
Proof.
  intros (Hdid & Hmac & Himg & Hdep).
  destruct c as [clk info|clk path metadata|clk device_id image_id method|device_id];
    cbn [perform].
  - destruct (dict_lookup info "mac_address") as [[|m]|] eqn:Hm.
    + assert (E : fst (register_device self clk info w) = w).
      { unfold register_device, getitem, generate_device_id, str_method.
        unfold_monad. rewrite Hm.
        destruct (truthy (dict_get info "device_id" PyNone)); reflexivity. }
      rewrite E. repeat split; assumption.
    + destruct (register_device_str_mac self clk info w m Hm)
        as (id & f & row & E & _ & Hrid & Hrmac & _).
      rewrite E. unfold unique_keys. cbn [fst devices images deployments rows].
      repeat split; try assumption.
      * apply NoDup_map_replace; [|exact Hdid].
        intros r Hr. unfold device_conflict.
        rewrite Hr, Hrid, String.eqb_refl. reflexivity.
      * apply NoDup_map_replace; [|exact Hmac].
        intros r Hr. unfold device_conflict.
        rewrite Hr, Hrmac, String.eqb_refl. apply orb_true_r.
    + assert (E : fst (register_device self clk info w) = w).
      { unfold register_device, getitem, generate_device_id, str_method.
        unfold_monad. rewrite Hm.
        destruct (truthy (dict_get info "device_id" PyNone)); reflexivity. }
      rewrite E. repeat split; assumption.
  - pose proof (register_image_cases self clk path metadata w) as C. cbv zeta in C.
    destruct (files w !! PurePath.str (Path path)) as [content|];
      [|rewrite C; repeat split; assumption].
    destruct (sql_value (dict_get metadata "name" (PyStr "Unknown")));
      [|destruct C as (e & ->); repeat split; assumption].
    destruct (sql_value (dict_get metadata "version" (PyStr "1.0")));
      [|destruct C as (e & ->); repeat split; assumption].
    rewrite C. unfold unique_keys. cbn [fst devices images deployments rows].
    repeat split; try assumption.
    apply (NoDup_map_replace Image.image_id
             (fun r => String.eqb (Image.image_id r) (image_id_of metadata content)));
      [|exact Himg].
    intros r Hr. rewrite Hr. apply String.eqb_refl.
  - destruct (deploy_image_to_device_cases self clk device_id image_id method w)
      as [(e & n & E)|(depid & res & f & n & started & E & Hfresh)]; rewrite E.
    + repeat split; assumption.
    + unfold unique_keys. cbn [fst devices images deployments rows].
      repeat split; try assumption.
      apply NoDup_map_snoc; [exact Hdep|].
      apply fresh_id_iff. exact Hfresh.
  - destruct (cleanup_frame self device_id w) as (f & b & ->).
    repeat split; assumption.
Qed.

Lemma unique_keys_kept_witness :
  unique_keys
    (perform default_manager
       (CallRegisterDevice later
          [("device_id", PyStr "lobby"); ("mac_address", PyStr "AA-BB-CC-DD-EE-FF")])
       two_device_world).
Proof.
  apply (unique_keys_kept default_manager
           (CallRegisterDevice later
              [("device_id", PyStr "lobby"); ("mac_address", PyStr "AA-BB-CC-DD-EE-FF")])
           two_device_world).
  unfold unique_keys. simpl.
  repeat split; repeat constructor; simpl; intuition discriminate.
Defined.

(* ================================================================== *)
(** ** The reservation file                                             *)
(* ================================================================== *)

(** The line written for a MAC and an IP address. *)
Lemma create_dhcp_reservation_cases mac ip w :
  let path := os_path reservations_file in
  let line := "dhcp-host=" +:+ mac +:+ "," +:+ format ip +:+ ",24h" in
  let nl := Str.chr Str.newline in
  if truthy ip then
    create_dhcp_reservation mac ip w
    = (set_files
         (<[path := match files w !! path with
                    | None => line
                    | Some old =>
                        if Str.contains mac old
                        then Str.join nl
                               (List.map (fun l => if Str.contains mac l then line else l)
                                  (Str.split Str.newline old))
                        else old +:+ nl +:+ line
                    end]> (files w)) w,
       Ok tt)
  else create_dhcp_reservation mac ip w = (w, Ok tt).
Proof.
  cbv zeta. unfold create_dhcp_reservation.
  destruct (truthy ip); [|reflexivity]. cbn [negb].
  unfold exists_, read_file, write_file. unfold_monad.
  destruct (files w !! os_path reservations_file) as [old|] eqn:Hf.
  - rewrite bool_decide_eq_true_2 by eauto. rewrite Hf.
    destruct (Str.contains mac old); reflexivity.
  - rewrite bool_decide_eq_false_2 by (intros [? ?]; discriminate). reflexivity.
Qed.

(** X22. The reservation step of a registration: without IP address
    (none, or the empty string) it changes nothing; with one it touches
    the reservation file only, and the file then is the one line
    [dhcp-host=MAC,IP,24h] when there was no file, or the old content
    with that line appended when the old content did not mention the
    MAC. *)
Theorem reservation_written mac ip w :
  let path := os_path reservations_file in
  let line := "dhcp-host=" +:+ mac +:+ "," +:+ format ip +:+ ",24h" in
  exists w',
    create_dhcp_reservation mac ip w = (w', Ok tt)
    /\ devices w' = devices w /\ deployments w' = deployments w
    /\ images w' = images w
    /\ (forall p, p <> path -> files w' !! p = files w !! p)
    /\ (truthy ip = false -> w' = w)
    /\ (truthy ip = true -> files w !! path = None -> files w' !! path = Some line)
    /\ (truthy ip = true ->
        forall old, files w !! path = Some old -> Str.contains mac old = false ->
                    files w' !! path = Some (old +:+ Str.chr Str.newline +:+ line)).
Proof.
  cbv zeta.
  pose proof (create_dhcp_reservation_cases mac ip w) as C. cbv zeta in C.
  destruct (truthy ip); rewrite C; eexists; (split; [reflexivity|]).
  - do 3 (split; [reflexivity|]).
    split; [intros p Hp; apply lookup_insert_ne; congruence|].
    split; [discriminate|]. cbn [files set_files].
    split.
    + intros _ Hnone. rewrite Hnone. apply lookup_insert_eq.
    + intros _ old Hold Hmac. rewrite Hold, Hmac. apply lookup_insert_eq.
  - do 3 (split; [reflexivity|]).
    split; [intros p _; reflexivity|].
    split; [intros _; reflexivity|].
    split; [intros H; discriminate H|intros H; discriminate H].
Qed.

(** *** Lines of a text *)

Lemma contains_char_cons c a s :
  Str.contains (Str.chr c) (String a s)
  = if ascii_dec c a then true else Str.contains (Str.chr c) s.
Proof.
  cbn [Str.contains Str.chr String.prefix].
  destruct (ascii_dec c a); [destruct s|]; reflexivity.
Qed.

Lemma contains_char_app c a b :
  Str.contains (Str.chr c) (a +:+ b)
  = (Str.contains (Str.chr c) a || Str.contains (Str.chr c) b)%bool.
Proof.
  induction a as [|x a IH].
  - destruct b; reflexivity.
  - change (String x a +:+ b) with (String x (a +:+ b)).
    rewrite !contains_char_cons, IH. destruct (ascii_dec c x); reflexivity.
Qed.

Lemma split_not_nil c s : Str.split c s <> [].
Proof.
  destruct s as [|a s]; simpl; [discriminate|].
  destruct (Ascii.eqb a c); [discriminate|].
  destruct (Str.split c s); discriminate.
Qed.

Lemma split_app_sep c x y :
  Str.split c (x +:+ String c y) = Str.split c x ++ Str.split c y.
Proof.
  induction x as [|a x IH].
  - change (EmptyString +:+ String c y) with (String c y).
    simpl. rewrite Ascii.eqb_refl. reflexivity.
  - change (String a x +:+ String c y) with (String a (x +:+ String c y)).
    cbn [Str.split]. rewrite IH.
    destruct (Ascii.eqb a c); [reflexivity|].
    destruct (Str.split c x) as [|h t] eqn:E; [|reflexivity].
    exfalso. exact (split_not_nil c x E).
Qed.

Lemma split_lines_clean c s l :
  In l (Str.split c s) -> Str.contains (Str.chr c) l = false.
Proof.
  revert l. induction s as [|a s IH]; intros l; simpl.
  - intros [<-|[]]. reflexivity.
  - destruct (Ascii.eqb_spec a c) as [->|Hne].
    + intros [<-|H]; [reflexivity|exact (IH l H)].
    + destruct (Str.split c s) as [|h t] eqn:E.
      * destruct (split_not_nil c s E).
      * intros [<-|H]; [|apply IH; now right].
        rewrite contains_char_cons.
        destruct (ascii_dec c a); [congruence|]. apply IH. now left.
Qed.

Lemma split_join c ls :
  ls <> [] ->
  (forall l, In l ls -> Str.contains (Str.chr c) l = false) ->
  Str.split c (Str.join (Str.chr c) ls) = ls.
Proof.
  induction ls as [|x ls IH]; [congruence|]. intros _ Hclean.
  destruct ls as [|y ls].
  - simpl. apply split_without_separator. apply Hclean. now left.
  - change (Str.join (Str.chr c) (x :: y :: ls))
      with (x +:+ String c (Str.join (Str.chr c) (y :: ls))).
    rewrite split_app_sep, IH.
    + rewrite (split_without_separator c x) by (apply Hclean; now left).
      reflexivity.
    + discriminate.
    + intros l Hl. apply Hclean. now right.
Qed.

Lemma prefix_empty s : String.prefix EmptyString s = true.
Proof. destruct s; reflexivity. Qed.

Lemma prefix_contains m s : String.prefix m s = true -> Str.contains m s = true.
Proof. intros H. destruct s; cbn [Str.contains]; rewrite H; reflexivity. Qed.

Lemma contains_cons m a s : Str.contains m s = true -> Str.contains m (String a s) = true.
Proof.
  intros H. cbn [Str.contains]. rewrite H.
  destruct (String.prefix m (String a s)); reflexivity.
Qed.

Lemma prefix_first_line c m s :
  String.prefix m s = true ->
  Str.contains (Str.chr c) m = false ->
  exists h t, Str.split c s = h :: t /\ String.prefix m h = true.
Proof.
  revert s. induction m as [|x m IH]; intros s Hp Hclean.
  - destruct (Str.split c s) as [|h t] eqn:E; [destruct (split_not_nil c s E)|].
    exists h, t. split; [reflexivity|apply prefix_empty].
  - destruct s as [|a s]; [discriminate Hp|].
    cbn [String.prefix] in Hp.
    destruct (ascii_dec x a) as [<-|]; [|discriminate Hp].
    rewrite contains_char_cons in Hclean.
    destruct (ascii_dec c x) as [|Hne]; [discriminate Hclean|].
    destruct (IH s Hp Hclean) as (h & t & E & Hh).
    exists (String x h), t. cbn [Str.split].
    rewrite (proj2 (Ascii.eqb_neq x c)) by congruence.
    rewrite E. split; [reflexivity|].
    cbn [String.prefix]. destruct (ascii_dec x x); [exact Hh|congruence].
Qed.

Lemma contains_in_line c m s :
  Str.contains m s = true ->
  Str.contains (Str.chr c) m = false ->
  exists l, In l (Str.split c s) /\ Str.contains m l = true.
Proof.
  intros Hm Hclean. induction s as [|a s IH].
  - assert (Hp : String.prefix m EmptyString = true).
    { cbn [Str.contains] in Hm.
      destruct (String.prefix m EmptyString); [reflexivity|discriminate Hm]. }
    destruct (prefix_first_line c m _ Hp Hclean) as (h & t & E & Hh).
    exists h. rewrite E. split; [now left|apply prefix_contains; exact Hh].
  - destruct (String.prefix m (String a s)) eqn:Hp.
    + destruct (prefix_first_line c m _ Hp Hclean) as (h & t & E & Hh).
      exists h. rewrite E. split; [now left|apply prefix_contains; exact Hh].
    + cbn [Str.contains] in Hm. rewrite Hp in Hm.
      destruct (IH Hm) as (l & Hl & Hc).
      cbn [Str.split]. destruct (Ascii.eqb a c).
      * exists l. split; [now right|exact Hc].
      * destruct (Str.split c s) as [|h t]; [destruct Hl|].
        destruct Hl as [<-|Hl].
        -- exists (String a h). split; [now left|apply contains_cons; exact Hc].
        -- exists l. split; [now right|exact Hc].
Qed.

Lemma reservation_line_clean mac ip :
  Str.contains (Str.chr Str.newline) mac = false ->
  Str.contains (Str.chr Str.newline) (format ip) = false ->
  Str.contains (Str.chr Str.newline)
    ("dhcp-host=" +:+ mac +:+ "," +:+ format ip +:+ ",24h") = false.
Proof.
  intros Hmac Hip. rewrite !contains_char_app, Hmac, Hip. reflexivity.
Qed.

Lemma reservation_file_after mac ip w :
  truthy ip = true ->
  create_dhcp_reservation mac ip w
  = (set_files
       (<[os_path reservations_file
          := reservation_content mac
               ("dhcp-host=" +:+ mac +:+ "," +:+ format ip +:+ ",24h")
               (files w !! os_path reservations_file)]> (files w)) w,
     Ok tt).
Proof.
  intros Hip.
  pose proof (create_dhcp_reservation_cases mac ip w) as C. cbv zeta in C.
  rewrite Hip in C. rewrite C. unfold reservation_content.
  destruct (files w !! os_path reservations_file); reflexivity.
Qed.

Lemma reservation_content_has_line mac line old :
  Str.contains (Str.chr Str.newline) mac = false ->
  Str.contains (Str.chr Str.newline) line = false ->
  In line (Str.split Str.newline (reservation_content mac line old)).
Proof.
  intros Hmacc Hline. unfold reservation_content.
  destruct old as [old|].
  - destruct (Str.contains mac old) eqn:Hin.
    + rewrite split_join.
      * destruct (contains_in_line Str.newline mac old Hin Hmacc) as (l & Hl & Hc).
        apply List.in_map_iff. exists l. rewrite Hc. auto.
      * destruct (Str.split Str.newline old) eqn:E;
          [destruct (split_not_nil _ _ E)|discriminate].
      * intros l Hl. apply List.in_map_iff in Hl as (l0 & <- & Hl0).
        destruct (Str.contains mac l0); [exact Hline|].
        exact (split_lines_clean _ _ _ Hl0).
    + change (old +:+ Str.chr Str.newline +:+ line)
        with (old +:+ String Str.newline line).
      rewrite split_app_sep, (split_without_separator Str.newline line Hline).
      apply List.in_or_app. right. now left.
  - rewrite (split_without_separator Str.newline line Hline). now left.
Qed.

(** X23. After the reservation step with an IP address, the reservation
    file has the line [dhcp-host=MAC,IP,24h] among its lines, whether
    the file was new, did not mention the MAC, or had lines for it
    (provided the MAC and the IP address hold no line break). *)
Theorem reservation_line_present mac ip w :
  truthy ip = true ->
  Str.contains (Str.chr Str.newline) mac = false ->
  Str.contains (Str.chr Str.newline) (format ip) = false ->
  exists w' content,
    create_dhcp_reservation mac ip w = (w', Ok tt)
    /\ files w' !! os_path reservations_file = Some content
    /\ In ("dhcp-host=" +:+ mac +:+ "," +:+ format ip +:+ ",24h")
          (Str.split Str.newline content).
Proof.
  intros Hip Hmacc Hipc.
  rewrite (reservation_file_after mac ip w Hip).
  eexists; eexists. split; [reflexivity|].
  cbn [files set_files]. split; [apply lookup_insert_eq|].
  apply reservation_content_has_line;
    [exact Hmacc|exact (reservation_line_clean mac ip Hmacc Hipc)].
Qed.

Lemma reservation_line_present_witness :
  exists w' content,
    create_dhcp_reservation "aa:bb:cc:dd:ee:ff" (PyStr "10.0.0.5") empty_world
    = (w', Ok tt)
    /\ files w' !! os_path reservations_file = Some content
    /\ In ("dhcp-host=" +:+ "aa:bb:cc:dd:ee:ff" +:+ "," +:+ format (PyStr "10.0.0.5")
           +:+ ",24h")
          (Str.split Str.newline content).
Proof.
  apply (reservation_line_present "aa:bb:cc:dd:ee:ff" (PyStr "10.0.0.5") empty_world);
    reflexivity.
Defined.

Lemma prefix_of_first_line c m r h t :
  Str.split c r = h :: t -> String.prefix m h = true -> String.prefix m r = true.
Proof.
  revert r h t. induction m as [|x m IH]; intros r h t E Hp; [apply prefix_empty|].
  destruct h as [|y h]; [discriminate Hp|].
  cbn [String.prefix] in Hp. destruct (ascii_dec x y) as [<-|]; [|discriminate Hp].
  destruct r as [|b r]; [simpl in E; discriminate E|].
  cbn [Str.split] in E. destruct (Ascii.eqb b c); [discriminate E|].
  destruct (Str.split c r) as [|h' t'] eqn:E'; [destruct (split_not_nil c r E')|].
  injection E as Hb Hh Ht. subst b h' t'.
  cbn [String.prefix]. destruct (ascii_dec x x); [|congruence].
  exact (IH r h t E' Hp).
Qed.

Lemma contains_cons_inv m a s :
  Str.contains m (String a s) = true ->
  String.prefix m (String a s) = true \/ Str.contains m s = true.
Proof.
  cbn [Str.contains]. destruct (String.prefix m (String a s)); auto.
Qed.

Lemma line_in_text c m s l :
  In l (Str.split c s) -> Str.contains m l = true -> Str.contains m s = true.
Proof.
  revert l. induction s as [|a s IH]; intros l.
  - intros [<-|[]] H. exact H.
  - cbn [Str.split]. destruct (Ascii.eqb a c).
    + intros [<-|Hl] H.
      * apply prefix_contains. cbn [Str.contains] in H.
        destruct m; [reflexivity|discriminate H].
      * apply contains_cons. exact (IH l Hl H).
    + destruct (Str.split c s) as [|h t] eqn:E; [destruct (split_not_nil c s E)|].
      intros [<-|Hl] H.
      * apply contains_cons_inv in H as [Hp|Hc].
        -- apply prefix_contains.
           destruct m as [|x m]; [reflexivity|].
           cbn [String.prefix] in Hp |- *.
           destruct (ascii_dec x a); [|discriminate Hp].
           exact (prefix_of_first_line c m s h t E Hp).
        -- apply contains_cons. apply (IH h); [now left|exact Hc].
      * apply contains_cons. apply (IH l); [now right|exact H].
Qed.

Lemma join_split c s : Str.join (Str.chr c) (Str.split c s) = s.
Proof.
  induction s as [|a s IH]; [reflexivity|].
  cbn [Str.split]. destruct (Str.split c s) as [|h t] eqn:E;
    [destruct (split_not_nil c s E)|].
  destruct (Ascii.eqb_spec a c) as [->|Hne].
  - change (Str.join (Str.chr c) (EmptyString :: h :: t))
      with (String c (Str.join (Str.chr c) (h :: t))).
    rewrite IH. reflexivity.
  - transitivity (String a (Str.join (Str.chr c) (h :: t))); [|rewrite IH; reflexivity].
    destruct t; reflexivity.
Qed.

Lemma prefix_app m b : String.prefix m (m +:+ b) = true.
Proof.
  induction m as [|x m IH]; [apply prefix_empty|].
  change (String x m +:+ b) with (String x (m +:+ b)).
  cbn [String.prefix]. destruct (ascii_dec x x); [exact IH|congruence].
Qed.

Lemma contains_middle m a b : Str.contains m (a +:+ m +:+ b) = true.
Proof.
  induction a as [|x a IH].
  - change (EmptyString +:+ m +:+ b) with (m +:+ b).
    apply prefix_contains, prefix_app.
  - change (String x a +:+ m +:+ b) with (String x (a +:+ m +:+ b)).
    apply contains_cons. exact IH.
Qed.

Lemma map_fixed {A} (g : A -> A) (l : list A) :
  (forall x, In x l -> g x = x) -> List.map g l = l.
Proof.
  induction l as [|a l IH]; intros H; simpl; [reflexivity|].
  rewrite (H a), IH; auto; [intros x Hx; apply H; now right|now left].
Qed.

(** X24. The reservation step is idempotent: run again with the same
    MAC and IP address, right after itself, it leaves the reservation
    file, and the world, as they are (the MAC and the IP address holding
    no line break). *)
Theorem reservation_idempotent mac ip w w1 :
  Str.contains (Str.chr Str.newline) mac = false ->
  Str.contains (Str.chr Str.newline) (format ip) = false ->
  create_dhcp_reservation mac ip w = (w1, Ok tt) ->
  create_dhcp_reservation mac ip w1 = (w1, Ok tt).
Proof.
  intros Hmacc Hipc Hrun.
  pose proof (create_dhcp_reservation_cases mac ip w) as C. cbv zeta in C.
  pose proof (create_dhcp_reservation_cases mac ip w1) as C1. cbv zeta in C1.
  destruct (truthy ip) eqn:Hip.
  2:{ exact C1. }
  pose proof (reservation_line_clean mac ip Hmacc Hipc) as Hline.
  set (line := "dhcp-host=" +:+ mac +:+ "," +:+ format ip +:+ ",24h") in *.
  set (path := os_path reservations_file) in *.
  set (g := fun l : string => if Str.contains mac l then line else l) in *.
  assert (Hmacline : Str.contains mac line = true)
    by apply (contains_middle mac "dhcp-host=" ("," +:+ format ip +:+ ",24h")).
  rewrite C in Hrun. injection Hrun as <-.
  cbn [files set_files] in C1. rewrite lookup_insert_eq in C1.
  rewrite C1. clear C C1.
  set (c1 := match files w !! path with
             | Some old => if Str.contains mac old
                           then Str.join (Str.chr Str.newline)
                                  (List.map g (Str.split Str.newline old))
                           else old +:+ Str.chr Str.newline +:+ line
             | None => line
             end).
  assert (Hlines : forall l, In l (Str.split Str.newline c1) ->
                             Str.contains mac l = true -> l = line).
  { unfold c1. destruct (files w !! path) as [old|].
    - destruct (Str.contains mac old) eqn:Hin.
      + rewrite split_join.
        * intros l Hl Hc. apply List.in_map_iff in Hl as (l0 & <- & _).
          unfold g in *. destruct (Str.contains mac l0) eqn:E; congruence.
        * destruct (Str.split Str.newline old) eqn:E;
            [destruct (split_not_nil _ _ E)|discriminate].
        * intros l Hl. apply List.in_map_iff in Hl as (l0 & <- & Hl0).
          unfold g. destruct (Str.contains mac l0); [exact Hline|].
          exact (split_lines_clean _ _ _ Hl0).
      + change (old +:+ Str.chr Str.newline +:+ line)
          with (old +:+ String Str.newline line).
        rewrite split_app_sep, (split_without_separator Str.newline line Hline).
        intros l Hl Hc. apply List.in_app_or in Hl as [Hl|[<-|[]]]; [|reflexivity].
        rewrite (line_in_text _ _ _ _ Hl Hc) in Hin. discriminate Hin.
    - rewrite (split_without_separator Str.newline line Hline).
      intros l [<-|[]] _. reflexivity. }
  assert (Hmentions : Str.contains mac c1 = true).
  { exact (line_in_text _ _ _ _
             (reservation_content_has_line mac line (files w !! path) Hmacc Hline)
             Hmacline). }
  rewrite Hmentions.
  rewrite (map_fixed g).
  - rewrite join_split, insert_insert_eq. reflexivity.
  - intros l Hl. unfold g. destruct (Str.contains mac l) eqn:E; [|reflexivity].
    symmetry. exact (Hlines l Hl E).
Qed.

Lemma reservation_idempotent_witness :
  create_dhcp_reservation "aa:bb:cc:dd:ee:ff" (PyStr "10.0.0.5") (fst reserved_again)
  = (fst reserved_again, Ok tt).
Proof.
  apply (reservation_idempotent "aa:bb:cc:dd:ee:ff" (PyStr "10.0.0.5")
           reserved_world (fst reserved_again));
    vm_compute; reflexivity.
Defined.

(** A registration runs the reservation step on the canonical MAC, after
    the row is written. *)
Lemma register_device_reserves self clk info w m :
  dict_lookup info "mac_address" = Some (PyStr m) ->
  exists w0 w' r,
    register_device self clk info w = (w', Ok (Success r))
    /\ files w0 = files w
    /\ create_dhcp_reservation (canonical_mac m) (dict_get info "ip_address" PyNone) w0
       = (w', Ok tt).
Proof.
  intros Hm.
  unfold register_device, getitem, generate_device_id, str_method,
    insert_or_replace_device, datetime_now, CURRENT_TIMESTAMP.
  unfold_monad. rewrite Hm. fold (canonical_mac m).
  destruct (truthy (dict_get info "device_id" PyNone)); cbv beta iota;
    match goal with
    | |- context [create_dhcp_reservation ?a ?b ?w0] =>
        destruct (create_dhcp_reservation_frame a b w0) as [f Hf];
        exists w0; rewrite Hf
    end;
    eexists; eexists; (split; [reflexivity|]); split; reflexivity.
Qed.

(** X25. A successful registration that carries an IP address leaves the
    line [dhcp-host=MAC,IP,24h], with the canonical MAC, among the lines
    of the reservation file; a registration without IP address leaves
    every file as it was. *)
Theorem registration_reserves_address self clk info w m :
  dict_lookup info "mac_address" = Some (PyStr m) ->
  Str.contains (Str.chr Str.newline) (canonical_mac m) = false ->
  Str.contains (Str.chr Str.newline) (format (dict_get info "ip_address" PyNone)) = false ->
  exists w' r,
    register_device self clk info w = (w', Ok (Success r))
    /\ if truthy (dict_get info "ip_address" PyNone)
       then exists content,
              files w' !! os_path reservations_file = Some content
              /\ In ("dhcp-host=" +:+ Reply.mac_address r +:+ ","
                     +:+ format (dict_get info "ip_address" PyNone) +:+ ",24h")
                    (Str.split Str.newline content)
       else files w' = files w.
Proof.
  intros Hm Hmacc Hipc.
  destruct (register_device_reserves self clk info w m Hm)
    as (w0 & w' & r & E & Hfiles & Hres).
  destruct (register_device_str_mac self clk info w m Hm)
    as (id & f & row & E' & _).
  exists w', r. split; [exact E|].
  assert (Hr : Reply.mac_address r = canonical_mac m)
    by (rewrite E in E'; injection E' as _ ->; reflexivity).
  rewrite Hr.
  destruct (truthy (dict_get info "ip_address" PyNone)) eqn:Hip.
  - rewrite (reservation_file_after _ _ w0 Hip) in Hres. injection Hres as <-.
    eexists. cbn [files set_files]. split; [apply lookup_insert_eq|].
    apply reservation_content_has_line;
      [exact Hmacc|exact (reservation_line_clean _ _ Hmacc Hipc)].
  - pose proof (create_dhcp_reservation_cases (canonical_mac m)
                  (dict_get info "ip_address" PyNone) w0) as C.
    cbv zeta in C. rewrite Hip in C. rewrite C in Hres.
    injection Hres as <-. exact Hfiles.
Qed.

Lemma registration_reserves_address_witness :
  exists w' r,
    register_device default_manager noon
      [("mac_address", PyStr "AA-BB-CC-DD-EE-FF"); ("ip_address", PyStr "10.0.0.5")]
      reserved_world = (w', Ok (Success r))
    /\ if truthy (PyStr "10.0.0.5")
       then exists content,
              files w' !! os_path reservations_file = Some content
              /\ In ("dhcp-host=" +:+ Reply.mac_address r +:+ ","
                     +:+ format (PyStr "10.0.0.5") +:+ ",24h")
                    (Str.split Str.newline content)
       else files w' = files reserved_world.
Proof.
  apply (registration_reserves_address default_manager noon
           [("mac_address", PyStr "AA-BB-CC-DD-EE-FF"); ("ip_address", PyStr "10.0.0.5")]
           reserved_world "AA-BB-CC-DD-EE-FF");
    reflexivity.
Defined.

(** X26. A deployment that got as far as the dispatch shows in the
    listing of its device's deployments, under the id it returned and
    never as [pending]; every row of that listing is of that device. *)
Theorem dispatched_deployment_is_listed
    self clk device_id image_id method w w' result deployment_id :
  deploy_image_to_device self clk device_id image_id method w
  = (w', Ok (Reply.Deploy result (Some deployment_id))) ->
  device_id <> EmptyString ->
  exists l row,
    list_deployments self (PyStr device_id) PyNone w' = (w', Ok l)
    /\ In row l
    /\ Deployment.deployment_id row = deployment_id
    /\ Deployment.image_id row = image_id
    /\ Deployment.status row
       = Some (if success result then "deploying" else "failed")
    /\ (forall r, In r l -> Deployment.device_id r = device_id).
Proof.
  intros Hrun Hne.
  destruct (deploy_dispatched _ _ _ _ _ _ _ _ _ Hrun)
    as (_ & _ & _ & _ & _ & row & Hrows & Hid & Hdev & Himg & _).
  destruct (deploy_sets_status _ _ _ _ _ _ _ _ _ Hrun) as (row' & Hone & Hst).
  assert (Hrow : row' = row).
  { unfold deployments_with_id in Hone. rewrite Hrows, List.filter_app in Hone.
    cbn [List.filter] in Hone. rewrite Hid, String.eqb_refl in Hone.
    apply (f_equal (fun l => List.last l row)) in Hone.
    rewrite List.last_last in Hone. simpl in Hone. congruence. }
  subst row'.
  assert (Htruthy : truthy (PyStr device_id) = true)
    by (destruct device_id; [congruence|reflexivity]).
  destruct (list_deployments_members self (PyStr device_id) PyNone w')
    as (l & E & Hin).
  exists l, row. split; [exact E|].
  split.
  - apply Hin. split; [|split; [intros _; exact Hdev|discriminate]].
    rewrite Hrows. apply List.in_or_app. right. now left.
  - split; [exact Hid|]. split; [exact Himg|]. split.
    + destruct result; cbn [success]; tauto.
    + intros r Hr. apply Hin in Hr as (_ & Hd & _). exact (Hd Htruthy).
Qed.

Lemma dispatched_deployment_is_listed_witness :
  exists l row,
    list_deployments default_manager (PyStr "aabbccddeeff") PyNone (fst first_deploy)
    = (fst first_deploy, Ok l)
    /\ In row l
    /\ Deployment.deployment_id row = "deploy-20240501-120000-aabbccdd"
    /\ Deployment.image_id row = "kiosk-2.0-9893f46b"
    /\ Deployment.status row
       = Some (if success (Success kiosk_boot_menu) then "deploying" else "failed")
    /\ (forall r, In r l -> Deployment.device_id r = "aabbccddeeff").
Proof.
  apply (dispatched_deployment_is_listed default_manager noon "aabbccddeeff"
           "kiosk-2.0-9893f46b" "pxe" kiosk_world (fst first_deploy)
           (Success kiosk_boot_menu) "deploy-20240501-120000-aabbccdd").
  - vm_compute. reflexivity.
  - discriminate.
Defined.
